(** * Rockchip integrated FEPHY driver: register sequencing and WOL lifecycle

    A shallow embedding of [drivers/net/phy/rockchip-fephy.c].  Every driver
    function takes [struct phy_device *phydev] and talks to the outside
    through kernel services (MDIO register access, the interrupt
    controller, the generic PHY layer).  The embedding threads one
    [phy_device] state through each function and records every call into a
    kernel service in a chronological [trace]; the answers of the kernel
    services come from an arbitrary [kernel] oracle that sees the history. *)

From Stdlib Require Import ZArith Lia.
From Stdlib.Strings Require Import Byte.
From stdpp Require Import base list strings gmap.

Local Open Scope Z_scope.

(** ** C integer types and register constants *)

Definition u8 (x : Z) : Z := x mod 2 ^ 8.
Definition u16 (x : Z) : Z := x mod 2 ^ 16.
Definition u32 (x : Z) : Z := x mod 2 ^ 32.

(** [BIT(n)] is [1UL << n]; the driver only uses n <= 15. *)
Definition BIT (n : Z) : Z := Z.shiftl 1 n.

Definition MII_INTERNAL_CTRL_STATUS : Z := 17.
Definition SMI_ADDR_TSTCNTL : Z := 20.
Definition SMI_ADDR_TSTREAD1 : Z := 21.
Definition SMI_ADDR_TSTREAD2 : Z := 22.
Definition SMI_ADDR_TSTWRITE : Z := 23.
Definition MII_LED_CTRL : Z := 25.
Definition MII_INT_STATUS : Z := 29.
Definition MII_INT_MASK : Z := 30.
Definition MII_SPECIAL_CONTROL_STATUS : Z := 31.

Definition TSTCNTL_WRITE_ADDR : Z := 0.
Definition TSTCNTL_READ_ADDR : Z := 5.
Definition TSTCNTL_BANK_SEL : Z := 11.
Definition TSTCNTL_RD : Z := Z.lor (BIT 15) (BIT 10).
Definition TSTCNTL_WR : Z := Z.lor (BIT 14) (BIT 10).

(** The macros work on [unsigned long]; with an 8-bit bank and a 32-bit
    register offset no intermediate value leaves that type. *)
Definition TSTCNTL_WRITE (bank reg : Z) : Z :=
  Z.lor (Z.lor TSTCNTL_WR (Z.shiftl bank TSTCNTL_BANK_SEL))
        (Z.shiftl reg TSTCNTL_WRITE_ADDR).
Definition TSTCNTL_READ (bank reg : Z) : Z :=
  Z.lor (Z.lor TSTCNTL_RD (Z.shiftl bank TSTCNTL_BANK_SEL))
        (Z.shiftl reg TSTCNTL_READ_ADDR).

Definition TSTMODE_ENABLE : Z := 0x400.
Definition TSTMODE_DISABLE : Z := 0x0.

Definition WR_ADDR_A7CFG : Z := 0x18.

Definition BANK_DSP0 : Z := 0.
Definition BANK_WOL : Z := 1.
Definition BANK_BIST : Z := 3.
Definition BANK_AFE : Z := 4.
Definition BANK_DSP1 : Z := 5.

(** Errno values of [include/uapi/asm-generic/errno-base.h] and
    [include/linux/errno.h]. *)
Definition ENOMEM : Z := 12.
Definition EPROBE_DEFER : Z := 517.

(** ** Calls into the kernel, and the state they act on *)

Inductive event : Type :=
  | ev_phy_write (regnum val rc : Z)
  | ev_phy_read (regnum rv : Z)
  | ev_devm_kzalloc (ok : bool)
  | ev_of_irq_get_byname (name : string) (rv : Z)
  | ev_devm_request_threaded_irq (irq : Z) (name : string) (rc : Z)
  | ev_phydev_err (rc : Z)
  | ev_disable_irq (irq : Z)
  | ev_enable_irq (irq : Z)
  | ev_enable_irq_wake (irq : Z)
  | ev_genphy_config_aneg (rc : Z)
  | ev_genphy_suspend (rc : Z)
  | ev_genphy_resume (rc : Z).

(** What the external collaborators answer, given everything that
    happened before.  Return codes follow the kernel convention: 0 is
    success, a negative errno is a failure. *)
Record kernel : Type := {
  phy_write_rc : list event -> Z -> Z -> Z;
  phy_read_rv : list event -> Z -> Z;
  devm_kzalloc_ok : list event -> bool;
  of_irq_get_byname_rv : list event -> string -> Z;
  devm_request_threaded_irq_rc : list event -> Z -> Z;
  genphy_config_aneg_rc : list event -> Z;
  genphy_suspend_rc : list event -> Z;
  genphy_resume_rc : list event -> Z
}.

Record net_device : Type := { dev_addr : list byte }.

(** [struct rockchip_fephy_priv]: the back pointer is either NULL or the
    owning [phydev]. *)
Record rockchip_fephy_priv : Type := {
  priv_phydev : bool;
  wol_irq : Z
}.

(** The part of [struct phy_device] the driver reads or writes, the flat
    register file behind its MDIO address, and the history of calls. *)
Record phy_device : Type := {
  attached_dev : option net_device;
  priv : option rockchip_fephy_priv;
  mdio_regs : gmap Z Z;
  trace : list event
}.

Definition log_event (e : event) (s : phy_device) : phy_device :=
  {| attached_dev := attached_dev s; priv := priv s;
     mdio_regs := mdio_regs s; trace := trace s ++ [e] |}.

Definition store_reg (regnum val : Z) (s : phy_device) : phy_device :=
  {| attached_dev := attached_dev s; priv := priv s;
     mdio_regs := <[regnum := val]> (mdio_regs s); trace := trace s |}.

Definition with_priv (p : option rockchip_fephy_priv) (s : phy_device)
  : phy_device :=
  {| attached_dev := attached_dev s; priv := p;
     mdio_regs := mdio_regs s; trace := trace s |}.

(** ** The monad of driver code

    A computation reads and updates the [phy_device]; [None] is a NULL
    pointer dereference or an out-of-bounds read (a kernel oops). *)

Definition M (A : Type) : Type := phy_device -> option (A * phy_device).

Definition Return {A} (a : A) : M A := fun s => Some (a, s).

Definition Bind {A B} (m : M A) (f : A -> M B) : M B :=
  fun s => match m s with
           | Some (a, s') => f a s'
           | None => None
           end.

Definition oops {A} : M A := fun _ => None.

Notation "x <- m ;; k" := (Bind m (fun x => k))
  (at level 100, m at next level, right associativity).
Notation "m ;;; k" := (Bind m (fun _ => k))
  (at level 100, right associativity).

(** C's [if (ret)]. *)
Definition nonzero (ret : Z) : bool := negb (ret =? 0).

Section Driver.

Context (K : kernel).

(** *** Kernel services *)

(** Modelled from the spec: the Register Access Primitive [phy_write]
    of [include/linux/phy.h], [write(addr, value) -> Result or Error] on
    16-bit registers.  The parameters are [u32 regnum] and [u16 val]; a
    successful write leaves [val] in the register, and there is no other
    side effect. *)
Definition phy_write (regnum val : Z) : M Z := fun s =>
  let regnum := u32 regnum in
  let val := u16 val in
  let rc := phy_write_rc K (trace s) regnum val in
  let s1 := if nonzero rc then s else store_reg regnum val s in
  Some (rc, log_event (ev_phy_write regnum val rc) s1).

(** Modelled from the spec: [read(addr) -> uint16 or Error], the kernel's
    [phy_read]. *)
Definition phy_read (regnum : Z) : M Z := fun s =>
  let regnum := u32 regnum in
  let rv := phy_read_rv K (trace s) regnum in
  Some (rv, log_event (ev_phy_read regnum rv) s).

Definition devm_kzalloc : M bool := fun s =>
  let ok := devm_kzalloc_ok K (trace s) in
  Some (ok, log_event (ev_devm_kzalloc ok) s).

Definition of_irq_get_byname (name : string) : M Z := fun s =>
  let rv := of_irq_get_byname_rv K (trace s) name in
  Some (rv, log_event (ev_of_irq_get_byname name rv) s).

Definition devm_request_threaded_irq (irq : Z) (name : string) : M Z := fun s =>
  let rc := devm_request_threaded_irq_rc K (trace s) irq in
  Some (rc, log_event (ev_devm_request_threaded_irq irq name rc) s).

Definition phydev_err (rc : Z) : M unit := fun s =>
  Some (tt, log_event (ev_phydev_err rc) s).

Definition disable_irq (irq : Z) : M unit := fun s =>
  Some (tt, log_event (ev_disable_irq irq) s).

Definition enable_irq (irq : Z) : M unit := fun s =>
  Some (tt, log_event (ev_enable_irq irq) s).

Definition enable_irq_wake (irq : Z) : M unit := fun s =>
  Some (tt, log_event (ev_enable_irq_wake irq) s).

Definition genphy_config_aneg : M Z := fun s =>
  let rc := genphy_config_aneg_rc K (trace s) in
  Some (rc, log_event (ev_genphy_config_aneg rc) s).

Definition genphy_suspend : M Z := fun s =>
  let rc := genphy_suspend_rc K (trace s) in
  Some (rc, log_event (ev_genphy_suspend rc) s).

Definition genphy_resume : M Z := fun s =>
  let rc := genphy_resume_rc K (trace s) in
  Some (rc, log_event (ev_genphy_resume rc) s).

(** *** Pointer reads *)

(** [ndev->dev_addr[i]] with [ndev = phydev->attached_dev]. *)
Definition read_dev_addr (i : nat) : M Z := fun s =>
  match attached_dev s with
  | Some ndev =>
      match dev_addr ndev !! i with
      | Some b => Return (Z.of_N (Byte.to_N b)) s
      | None => oops s
      end
  | None => oops s
  end.

(** [phydev->priv], about to be dereferenced. *)
Definition deref_priv : M rockchip_fephy_priv := fun s =>
  match priv s with
  | Some p => Return p s
  | None => oops s
  end.

(** *** The driver *)

Definition rockchip_fephy_init_tstmode : M Z :=
  ret <- phy_write SMI_ADDR_TSTCNTL TSTMODE_DISABLE ;;
  if nonzero ret then Return ret else
  ret <- phy_write SMI_ADDR_TSTCNTL TSTMODE_ENABLE ;;
  if nonzero ret then Return ret else
  ret <- phy_write SMI_ADDR_TSTCNTL TSTMODE_DISABLE ;;
  if nonzero ret then Return ret else
  phy_write SMI_ADDR_TSTCNTL TSTMODE_ENABLE.

Definition rockchip_fephy_close_tstmode : M Z :=
  phy_write SMI_ADDR_TSTCNTL TSTMODE_DISABLE.

(** The parameters are [u8 bank], [u32 reg], [u16 val]. *)
Definition rockchip_fephy_bank_write (bank reg val : Z) : M Z :=
  let bank := u8 bank in
  let reg := u32 reg in
  let val := u16 val in
  ret <- phy_write SMI_ADDR_TSTWRITE val ;;
  if nonzero ret then Return ret else
  phy_write SMI_ADDR_TSTCNTL (TSTCNTL_WRITE bank reg).

Definition rockchip_fephy_config_init : M Z :=
  ret <- phy_write MII_LED_CTRL 0x7aa ;;
  if nonzero ret then Return ret else
  ret <- rockchip_fephy_init_tstmode ;;
  if nonzero ret then Return ret else
  ret <- rockchip_fephy_bank_write BANK_DSP0 0x18 0xc ;;
  if nonzero ret then Return ret else
  ret <- rockchip_fephy_close_tstmode ;;
  if nonzero ret then Return ret else
  Return ret.

Definition rockchip_fephy_config_aneg : M Z := genphy_config_aneg.

(** [((u16)ndev->dev_addr[hi] << 8) + ndev->dev_addr[lo]], computed in
    [int]. *)
Definition dev_addr_word (hi lo : nat) : M Z :=
  h <- read_dev_addr hi ;;
  l <- read_dev_addr lo ;;
  Return (Z.shiftl (u16 h) 8 + l).

Definition rockchip_fephy_wol_enable : M Z :=
  w <- dev_addr_word 4 5 ;;
  ret <- rockchip_fephy_bank_write BANK_WOL 0x0 w ;;
  if nonzero ret then Return ret else
  w <- dev_addr_word 2 3 ;;
  ret <- rockchip_fephy_bank_write BANK_WOL 0x1 w ;;
  if nonzero ret then Return ret else
  w <- dev_addr_word 0 1 ;;
  ret <- rockchip_fephy_bank_write BANK_WOL 0x2 w ;;
  if nonzero ret then Return ret else
  ret <- rockchip_fephy_bank_write BANK_WOL 0x3 0xf ;;
  if nonzero ret then Return ret else
  ret <- phy_write MII_INT_MASK 0xe00 ;;
  if nonzero ret then Return ret else
  Return ret.

Definition rockchip_fephy_wol_disable : M Z :=
  ret <- rockchip_fephy_bank_write BANK_WOL 0x3 0x0 ;;
  if nonzero ret then Return ret else
  ret <- phy_write MII_INT_MASK 0x0 ;;
  if nonzero ret then Return ret else
  Return ret.

(** The threaded handler gets the instance state as [dev_id] and reads the
    status register through [priv->phydev] to acknowledge, dropping the
    value; while the back pointer is NULL the read dereferences NULL. *)
Definition rockchip_fephy_wol_irq_thread : M unit :=
  p <- deref_priv ;;
  if priv_phydev p then phy_read MII_INT_STATUS ;;; Return tt
  else oops.

Definition set_priv (p : rockchip_fephy_priv) : M unit := fun s =>
  Some (tt, with_priv (Some p) s).

Definition rockchip_fephy_probe : M Z :=
  ok <- devm_kzalloc ;;
  if negb ok then Return (- ENOMEM) else
  set_priv {| priv_phydev := false; wol_irq := 0 |} ;;;
  irq <- of_irq_get_byname "wol_irq" ;;
  set_priv {| priv_phydev := false; wol_irq := irq |} ;;;
  if irq =? - EPROBE_DEFER then Return irq else
  if 0 <? irq then
    ret <- devm_request_threaded_irq irq "rockchip_fephy_wol_irq" ;;
    if nonzero ret then
      phydev_err ret ;;; Return ret
    else
      disable_irq irq ;;;
      enable_irq_wake irq ;;;
      set_priv {| priv_phydev := true; wol_irq := irq |} ;;;
      Return 0
  else
    set_priv {| priv_phydev := true; wol_irq := irq |} ;;;
    Return 0.

Definition rockchip_fephy_remove : M unit := Return tt.

Definition rockchip_fephy_suspend : M Z :=
  p <- deref_priv ;;
  (if 0 <? wol_irq p then
     rockchip_fephy_wol_enable ;;;
     enable_irq (wol_irq p)
   else Return tt) ;;;
  genphy_suspend.

Definition rockchip_fephy_resume : M Z :=
  p <- deref_priv ;;
  (if 0 <? wol_irq p then
     rockchip_fephy_wol_disable ;;;
     disable_irq (wol_irq p)
   else Return tt) ;;;
  genphy_resume.

End Driver.

(** ** Register-write scripts

    Most of the driver is straight-line sequences of register writes, each
    guarded by [if (ret) return ret;].  A script is the list of
    (register, value) pairs of such a sequence. *)

Definition script : Type := list (Z * Z).

(** [script_run ws es rc]: the writes of [ws] were attempted in order, [es]
    are the attempts with their return codes, every attempt but a failing
    last one returned 0, nothing follows a failure, and [rc] is the failing
    code (0 when the whole script went through). *)
Inductive script_run : script -> list event -> Z -> Prop :=
  | script_done : script_run [] [] 0
  | script_ok r v ws es rc :
      script_run ws es rc ->
      script_run ((r, v) :: ws) (ev_phy_write r v 0 :: es) rc
  | script_fail r v ws rc :
      rc <> 0 ->
      script_run ((r, v) :: ws) [ev_phy_write r v rc] rc.

(** The trace of a script whose writes all succeed. *)
Definition ok_events (ws : script) : list event :=
  map (fun w => ev_phy_write (fst w) (snd w) 0) ws.

(** The (register, value) pairs of the writes in a trace. *)
Fixpoint writes_of (es : list event) : script :=
  match es with
  | [] => []
  | ev_phy_write r v _ :: es' => (r, v) :: writes_of es'
  | _ :: es' => writes_of es'
  end.

(** A script entry as [phy_write] receives it: [u32 regnum], [u16 val]. *)
Definition as_written (w : Z * Z) : Z * Z := (u32 (fst w), u16 (snd w)).

(** The register file after the writes of a script, all successful. *)
Definition write_regs (ws : script) (m : gmap Z Z) : gmap Z Z :=
  foldl (fun m w => <[fst w := snd w]> m) m ws.

(** A bus on which no write fails. *)
Definition bus_ok (K : kernel) : Prop :=
  forall t r v, phy_write_rc K t r v = 0.

(** [performs K m ws s]: run from [s], the driver code [m] does not fault,
    and all it does is a run of the script [ws]: the trace grows by the
    attempted writes, the pointers of the device are left alone, the
    register file takes the writes when all succeed, and on a bus that
    never fails the result is 0. *)
Definition performs (K : kernel) (m : M Z) (ws : script) (s : phy_device)
  : Prop :=
  exists rc s' es,
    m s = Some (rc, s') /\
    trace s' = trace s ++ es /\
    script_run ws es rc /\
    attached_dev s' = attached_dev s /\
    priv s' = priv s /\
    (rc = 0 -> mdio_regs s' = write_regs ws (mdio_regs s)) /\
    (bus_ok K -> rc = 0).

(** The four writes of [rockchip_fephy_init_tstmode]. *)
Definition tstmode_script : script :=
  [(SMI_ADDR_TSTCNTL, 0x0); (SMI_ADDR_TSTCNTL, 0x400);
   (SMI_ADDR_TSTCNTL, 0x0); (SMI_ADDR_TSTCNTL, 0x400)].

(** A banked write as the two register writes it is made of: the value
    to the write-data register, then the control word (write-command flag
    bits, bank from bit 11, offset from bit 0) to the control register. *)
Definition control_word (bank offset : Z) : Z :=
  Z.lor (Z.lor TSTCNTL_WR (Z.shiftl bank 11)) (Z.shiftl offset 0).

Definition banked_write (bank offset value : Z) : script :=
  [(23, value); (20, control_word bank offset)].

(** The initialization sequence, write by write. *)
Definition config_init_script : script :=
  [(MII_LED_CTRL, 0x7aa);
   (SMI_ADDR_TSTCNTL, 0x0); (SMI_ADDR_TSTCNTL, 0x400);
   (SMI_ADDR_TSTCNTL, 0x0); (SMI_ADDR_TSTCNTL, 0x400)]
  ++ banked_write BANK_DSP0 0x18 0xc
  ++ [(SMI_ADDR_TSTCNTL, 0x0)].

(** A hardware address byte as a number. *)
Definition byte_val (b : byte) : Z := Z.of_N (Byte.to_N b).

(** WOL enable for the hardware address [I0:I1:I2:I3:I4:I5]. *)
Definition wol_enable_script (I0 I1 I2 I3 I4 I5 : Z) : script :=
  banked_write BANK_WOL 0 (Z.lor (Z.shiftl I4 8) I5)
  ++ banked_write BANK_WOL 1 (Z.lor (Z.shiftl I2 8) I3)
  ++ banked_write BANK_WOL 2 (Z.lor (Z.shiftl I0 8) I1)
  ++ banked_write BANK_WOL 3 0xF
  ++ [(30, 0xE00)].

Definition wol_disable_script : script :=
  banked_write BANK_WOL 0x3 0x0 ++ [(30, 0x0)].

(** What a caller can observe of a call: the return code and the calls
    made into the kernel. *)
Definition observe {A} (r : option (A * phy_device)) : option (A * list event) :=
  match r with
  | Some (a, s) => Some (a, trace s)
  | None => None
  end.

(** The value a call leaves in a register of the device. *)
Definition reg_after {A} (r : option (A * phy_device)) (regnum : Z)
  : option Z :=
  match r with
  | Some (_, s) => mdio_regs s !! regnum
  | None => None
  end.

(** ** Concrete kernels and devices *)

(** Every service succeeds; the device tree names interrupt [irq] as
    "wol_irq". *)
Definition kernel_ok (irq : Z) : kernel := {|
  phy_write_rc := fun _ _ _ => 0;
  phy_read_rv := fun _ _ => 0;
  devm_kzalloc_ok := fun _ => true;
  of_irq_get_byname_rv := fun _ _ => irq;
  devm_request_threaded_irq_rc := fun _ _ => 0;
  genphy_config_aneg_rc := fun _ => 0;
  genphy_suspend_rc := fun _ => 0;
  genphy_resume_rc := fun _ => 0
|}.

(** As [kernel_ok 7], but every register write fails with -EIO (-5). *)
Definition kernel_eio : kernel := {|
  phy_write_rc := fun _ _ _ => -5;
  phy_read_rv := fun _ _ => 0;
  devm_kzalloc_ok := fun _ => true;
  of_irq_get_byname_rv := fun _ _ => 7;
  devm_request_threaded_irq_rc := fun _ _ => 0;
  genphy_config_aneg_rc := fun _ => 0;
  genphy_suspend_rc := fun _ => 0;
  genphy_resume_rc := fun _ => 0
|}.

(** The interface with hardware address 00:11:22:33:44:55. *)
Definition ndev_example : net_device :=
  {| dev_addr := [x00; x11; x22; x33; x44; x55]%byte |}.

(** A device before probe, attached to [ndev_example]. *)
Definition phydev_fresh : phy_device :=
  {| attached_dev := Some ndev_example; priv := None;
     mdio_regs := ∅; trace := [] |}.

(** A probed device whose wake line is interrupt 7. *)
Definition phydev_wol : phy_device :=
  {| attached_dev := Some ndev_example;
     priv := Some {| priv_phydev := true; wol_irq := 7 |};
     mdio_regs := ∅; trace := [] |}.

(** A bus whose write number [n] (counting from 0 the writes already in
    the history) fails with -EIO (-5); everything else succeeds. *)
Definition kernel_fail_at (n : nat) : kernel := {|
  phy_write_rc := fun t _ _ =>
    if Nat.eqb (length (writes_of t)) n then -5 else 0;
  phy_read_rv := fun _ _ => 0;
  devm_kzalloc_ok := fun _ => true;
  of_irq_get_byname_rv := fun _ _ => 7;
  devm_request_threaded_irq_rc := fun _ _ => 0;
  genphy_config_aneg_rc := fun _ => 0;
  genphy_suspend_rc := fun _ => 0;
  genphy_resume_rc := fun _ => 0
|}.

(** The interrupt lookup finds line 7 and requesting it fails with -EBUSY
    (-16). *)
Definition kernel_irq_busy : kernel := {|
  phy_write_rc := fun _ _ _ => 0;
  phy_read_rv := fun _ _ => 0;
  devm_kzalloc_ok := fun _ => true;
  of_irq_get_byname_rv := fun _ _ => 7;
  devm_request_threaded_irq_rc := fun _ _ => -16;
  genphy_config_aneg_rc := fun _ => 0;
  genphy_suspend_rc := fun _ => 0;
  genphy_resume_rc := fun _ => 0
|}.

(** No memory for the instance state. *)
Definition kernel_nomem : kernel := {|
  phy_write_rc := fun _ _ _ => 0;
  phy_read_rv := fun _ _ => 0;
  devm_kzalloc_ok := fun _ => false;
  of_irq_get_byname_rv := fun _ _ => 7;
  devm_request_threaded_irq_rc := fun _ _ => 0;
  genphy_config_aneg_rc := fun _ => 0;
  genphy_suspend_rc := fun _ => 0;
  genphy_resume_rc := fun _ => 0
|}.


(** ** Reading a trace *)

(** The register file after one event: a write that returned 0 leaves its
    value, nothing else touches a register. *)
Definition replay_event (m : gmap Z Z) (e : event) : gmap Z Z :=
  match e with
  | ev_phy_write r v rc => if nonzero rc then m else <[r := v]> m
  | _ => m
  end.

Definition replay (es : list event) (m : gmap Z Z) : gmap Z Z :=
  foldl replay_event m es.

(** Driver code whose effect on the register file is the replay of what
    it appended to the trace, and which leaves the attached interface
    alone. *)
Definition tracked {A} (m : M A) : Prop :=
  forall s a s', m s = Some (a, s') ->
    exists es,
      trace s' = trace s ++ es /\
      mdio_regs s' = replay es (mdio_regs s) /\
      attached_dev s' = attached_dev s.

(** The value the last write of a script to register [i] leaves, [d] when
    the script does not write it. *)
Fixpoint last_write (i : Z) (ws : script) (d : option Z) : option Z :=
  match ws with
  | [] => d
  | (r, v) :: ws' => last_write i ws' (if r =? i then Some v else d)
  end.

(** An event that reads or writes a PHY register. *)
Definition is_reg_access (e : event) : bool :=
  match e with
  | ev_phy_write _ _ _ | ev_phy_read _ _ => true
  | _ => false
  end.

(** How often line [irq] was disabled minus how often it was enabled: the
    change of the interrupt controller's disable depth. *)
Definition irq_delta (irq : Z) (e : event) : Z :=
  match e with
  | ev_disable_irq i => if i =? irq then 1 else 0
  | ev_enable_irq i => if i =? irq then -1 else 0
  | _ => 0
  end.

Fixpoint irq_disable_depth (irq : Z) (es : list event) : Z :=
  match es with
  | [] => 0
  | e :: es' => irq_delta irq e + irq_disable_depth irq es'
  end.

(** ** Scripts against the bus *)

(** What running a script on the bus [K] gives after the history [t]: the
    attempted writes, each with the code the bus answers at that point of
    the history, up to and including the first one that fails, and the
    resulting code. *)
Fixpoint bus_run (K : kernel) (t : list event) (ws : script)
  : list event * Z :=
  match ws with
  | [] => ([], 0)
  | (r, v) :: ws' =>
      let rc := phy_write_rc K t r v in
      if nonzero rc then ([ev_phy_write r v rc], rc)
      else
        let '(es, rc') := bus_run K (t ++ [ev_phy_write r v rc]) ws' in
        (ev_phy_write r v rc :: es, rc')
  end.

(** [runs K m ws s]: run from [s], the driver code [m] does not fault; its
    result and what it appends to the trace are those of the script [ws] on
    the bus, the register file takes the successful writes, and the
    pointers of the device are left alone. *)
Definition runs (K : kernel) (m : M Z) (ws : script) (s : phy_device)
  : Prop :=
  exists rc s' es,
    m s = Some (rc, s') /\
    trace s' = trace s ++ es /\
    bus_run K (trace s) ws = (es, rc) /\
    attached_dev s' = attached_dev s /\
    priv s' = priv s /\
    mdio_regs s' = replay es (mdio_regs s).

(** Counting the events of a kind in a trace. *)
Fixpoint count_events (f : event -> bool) (es : list event) : nat :=
  match es with
  | [] => 0
  | e :: es' => (if f e then 1 else 0) + count_events f es'
  end.

Definition is_enable_irq (e : event) : bool :=
  match e with ev_enable_irq _ => true | _ => false end.

Definition is_disable_irq (e : event) : bool :=
  match e with ev_disable_irq _ => true | _ => false end.

Definition is_phy_write (e : event) : bool :=
  match e with ev_phy_write _ _ _ => true | _ => false end.

(** ** Integer facts *)

Lemma nonzero_false ret : nonzero ret = false <-> ret = 0.
Proof.
  unfold nonzero. destruct (Z.eqb_spec ret 0); simpl; split; congruence.
Qed.

Lemma nonzero_true ret : nonzero ret = true <-> ret <> 0.
Proof.
  unfold nonzero. destruct (Z.eqb_spec ret 0); simpl; split; congruence.
Qed.

Lemma u16_small x : 0 <= x < 2 ^ 16 -> u16 x = x.
Proof. intros H. unfold u16. apply Z.mod_small. exact H. Qed.

Lemma u32_small x : 0 <= x < 2 ^ 32 -> u32 x = x.
Proof. intros H. unfold u32. apply Z.mod_small. exact H. Qed.

Lemma u8_small x : 0 <= x < 2 ^ 8 -> u8 x = x.
Proof. intros H. unfold u8. apply Z.mod_small. exact H. Qed.

Lemma u16_range x : 0 <= u16 x < 2 ^ 16.
Proof. unfold u16. apply Z.mod_pos_bound. lia. Qed.

Lemma u16_idemp x : u16 (u16 x) = u16 x.
Proof. apply u16_small, u16_range. Qed.

(** Truncation to 16 bits goes through a bitwise or. *)
Lemma u16_lor a b : u16 (Z.lor a b) = Z.lor (u16 a) (u16 b).
Proof.
  unfold u16. rewrite <- !Z.land_ones by lia. apply Z.land_lor_distr_l.
Qed.

Lemma byte_val_range b : 0 <= byte_val b < 2 ^ 8.
Proof.
  unfold byte_val. pose proof (Byte.to_N_bounded b) as H.
  change (2 ^ 8) with 256. lia.
Qed.

(** With a low part below 2^8, adding it to a value shifted by 8 sets
    disjoint bits: the sum is the bitwise or. *)
Lemma shift8_add_lor h l : 0 <= l < 2 ^ 8 -> Z.shiftl h 8 + l = Z.lor (Z.shiftl h 8) l.
Proof.
  intros Hl.
  assert (Hdisj : Z.land (Z.shiftl h 8) l = 0).
  { apply Z.bits_inj'. intros n Hn. rewrite Z.land_spec, Z.bits_0.
    destruct (Z.lt_ge_cases n 8) as [Hlt | Hge].
    - rewrite Z.shiftl_spec_low by exact Hlt. reflexivity.
    - replace (Z.testbit l n) with false; [apply andb_false_r |].
      symmetry. destruct (Z.eq_dec l 0) as [-> | Hnz]; [apply Z.bits_0 |].
      apply Z.bits_above_log2; [lia |].
      apply Z.lt_le_trans with 8; [| exact Hge].
      apply Z.log2_lt_pow2; lia. }
  rewrite <- Z.lxor_lor by exact Hdisj.
  apply Z.add_nocarry_lxor. exact Hdisj.
Qed.

(** The word the driver computes from two address bytes is the packed
    big-endian pair, and it fits 16 bits. *)
Lemma dev_addr_word_val h l :
  0 <= h < 2 ^ 8 -> 0 <= l < 2 ^ 8 ->
  u16 (Z.shiftl (u16 h) 8 + l) = Z.lor (Z.shiftl h 8) l.
Proof.
  intros Hh Hl. rewrite (u16_small h) by lia.
  rewrite <- shift8_add_lor by exact Hl.
  apply u16_small. rewrite Z.shiftl_mul_pow2 by lia. lia.
Qed.

(** The control word of a banked write fits the 16-bit register when the
    bank is below 32 and the offset below 2^16. *)
Lemma control_word_u16 bank offset :
  0 <= bank < 32 -> 0 <= offset < 2 ^ 16 ->
  u16 (control_word bank offset) = control_word bank offset.
Proof.
  intros Hb Ho. unfold control_word. rewrite !u16_lor.
  rewrite (u16_small TSTCNTL_WR) by (vm_compute; split; congruence).
  rewrite (u16_small (Z.shiftl bank 11))
    by (rewrite Z.shiftl_mul_pow2 by lia; lia).
  rewrite (u16_small (Z.shiftl offset 0))
    by (rewrite Z.shiftl_0_r; exact Ho).
  reflexivity.
Qed.

Lemma control_word_macro bank reg : TSTCNTL_WRITE bank reg = control_word bank reg.
Proof. reflexivity. Qed.

(** ** Scripts: what a run looks like *)

Lemma script_run_length ws es rc :
  script_run ws es rc -> (length es <= length ws)%nat.
Proof. induction 1; simpl; lia. Qed.

Lemma script_run_success ws es : script_run ws es 0 -> es = ok_events ws.
Proof.
  intros H. remember 0 as rc eqn:Hrc. induction H; simpl.
  - reflexivity.
  - f_equal. apply IHscript_run. exact Hrc.
  - congruence.
Qed.

(** The attempted writes are an initial segment of the script. *)
Lemma script_run_prefix ws es rc :
  script_run ws es rc -> writes_of es = take (length es) ws.
Proof.
  induction 1 as [| r v ws es rc H IH | r v ws rc Hrc]; simpl.
  - reflexivity.
  - rewrite IH. reflexivity.
  - destruct ws; reflexivity.
Qed.

(** A write that fails is the last one attempted, and its code is the
    result. *)
Lemma script_run_stops ws es rc :
  script_run ws es rc ->
  forall k r v rc', es !! k = Some (ev_phy_write r v rc') -> rc' <> 0 ->
    length es = S k /\ rc = rc'.
Proof.
  induction 1 as [| r0 v0 ws es rc H IH | r0 v0 ws rc Hrc];
    intros k r v rc' Hk Hne.
  - destruct k; discriminate.
  - destruct k as [| k]; simpl in Hk.
    + inversion Hk; subst. congruence.
    + destruct (IH _ _ _ _ Hk Hne) as [Hlen ->]. simpl. split; congruence.
  - destruct k as [| k]; simpl in Hk.
    + inversion Hk; subst. split; reflexivity.
    + destruct k; discriminate.
Qed.

(** A non-zero result is the code of the last attempt, and every attempt
    before it succeeded. *)
Lemma script_run_failure ws es rc :
  script_run ws es rc -> rc <> 0 ->
  exists k r v, ws !! k = Some (r, v) /\
    es = ok_events (take k ws) ++ [ev_phy_write r v rc].
Proof.
  induction 1 as [| r0 v0 ws es rc H IH | r0 v0 ws rc Hrc]; intros Hne.
  - congruence.
  - destruct (IH Hne) as (k & r & v & Hk & ->).
    exists (S k), r, v. split; [exact Hk | reflexivity].
  - exists 0%nat, r0, v0. split; reflexivity.
Qed.

(** Every event of a run is a write of the script. *)
Lemma script_run_events ws es rc :
  script_run ws es rc ->
  forall e, e ∈ es -> exists r v rc', e = ev_phy_write r v rc' /\ (r, v) ∈ ws.
Proof.
  induction 1 as [| r0 v0 ws es rc H IH | r0 v0 ws rc Hrc]; intros e He.
  - inversion He.
  - apply elem_of_cons in He as [-> | He].
    + exists r0, v0, 0. split; [reflexivity | left].
    + destruct (IH e He) as (r & v & rc' & -> & Hin).
      exists r, v, rc'. split; [reflexivity | right; exact Hin].
  - apply list_elem_of_singleton in He as ->.
    exists r0, v0, rc. split; [reflexivity | left].
Qed.

(** A failure in the first of two scripts ends the run there. *)
Lemma script_run_app_fail ws1 ws2 es rc :
  script_run ws1 es rc -> rc <> 0 -> script_run (ws1 ++ ws2) es rc.
Proof.
  induction 1 as [| r v ws es rc H IH | r v ws rc Hrc]; intros Hne; simpl.
  - congruence.
  - apply script_ok. apply IH. exact Hne.
  - apply script_fail. exact Hrc.
Qed.

(** After a first script that went through, the second one runs. *)
Lemma script_run_app_ok ws1 ws2 es1 es2 rc :
  script_run ws1 es1 0 -> script_run ws2 es2 rc ->
  script_run (ws1 ++ ws2) (es1 ++ es2) rc.
Proof.
  intros H1 H2. remember 0 as z eqn:Hz.
  induction H1 as [| r v ws es z H IH | r v ws z Hrc]; simpl.
  - exact H2.
  - apply script_ok. apply IH. exact Hz.
  - congruence.
Qed.

Lemma write_regs_app ws1 ws2 m :
  write_regs (ws1 ++ ws2) m = write_regs ws2 (write_regs ws1 m).
Proof. unfold write_regs. apply foldl_app. Qed.

(** ** Rules for guarded sequences of writes *)

Lemma performs_conv K m ws ws' s :
  performs K m ws s -> ws = ws' -> performs K m ws' s.
Proof. intros H <-. exact H. Qed.

(** One register write is a script of one entry. *)
Lemma performs_phy_write K r v s :
  performs K (phy_write K r v) [as_written (r, v)] s.
Proof.
  unfold performs, phy_write, as_written. cbv zeta. simpl fst. simpl snd.
  set (rc := phy_write_rc K (trace s) (u32 r) (u16 v)).
  destruct (nonzero rc) eqn:E.
  - apply nonzero_true in E.
    exists rc, (log_event (ev_phy_write (u32 r) (u16 v) rc) s),
      [ev_phy_write (u32 r) (u16 v) rc].
    repeat split.
    + apply script_fail. exact E.
    + congruence.
    + intros HK. apply HK.
  - apply nonzero_false in E.
    exists rc, (log_event (ev_phy_write (u32 r) (u16 v) rc)
                  (store_reg (u32 r) (u16 v) s)),
      [ev_phy_write (u32 r) (u16 v) rc].
    repeat split.
    + rewrite E. apply script_ok, script_done.
    + intros HK. apply HK.
Qed.

(** [ret = m; if (ret) return ret; k]: the script of [m], then, if it went
    through, the script of [k]. *)
Lemma performs_seq K (m k : M Z) ws1 ws2 s :
  performs K m ws1 s ->
  (forall s1, attached_dev s1 = attached_dev s -> priv s1 = priv s ->
     performs K k ws2 s1) ->
  performs K (ret <- m ;; if nonzero ret then Return ret else k)
    (ws1 ++ ws2) s.
Proof.
  intros (rc1 & s1 & es1 & Hm & Htr1 & Hsr1 & Had1 & Hpr1 & Hreg1 & Hok1) Hk.
  unfold performs, Bind. rewrite Hm.
  destruct (nonzero rc1) eqn:E.
  - apply nonzero_true in E. exists rc1, s1, es1. unfold Return.
    split; [reflexivity |]. split; [exact Htr1 |].
    split; [apply script_run_app_fail; assumption |].
    split; [exact Had1 |]. split; [exact Hpr1 |].
    split; [congruence | exact Hok1].
  - apply nonzero_false in E. subst rc1.
    destruct (Hk s1 Had1 Hpr1)
      as (rc & s2 & es2 & Hk2 & Htr2 & Hsr2 & Had2 & Hpr2 & Hreg2 & Hok2).
    exists rc, s2, (es1 ++ es2).
    split; [exact Hk2 |].
    split; [rewrite Htr2, Htr1, app_assoc; reflexivity |].
    split; [apply script_run_app_ok; assumption |].
    split; [congruence |]. split; [congruence |].
    split; [| exact Hok2].
    intros Hrc. rewrite write_regs_app, <- Hreg1 by reflexivity.
    apply Hreg2. exact Hrc.
Qed.

(** [ret = m; if (ret) return ret; return ret;] is [return m;]. *)
Lemma performs_last K (m : M Z) ws s :
  performs K m ws s ->
  performs K (ret <- m ;; if nonzero ret then Return ret else Return ret) ws s.
Proof.
  intros (rc & s1 & es & Hm & H). exists rc, s1, es.
  split; [| exact H].
  unfold Bind. rewrite Hm. destruct (nonzero rc); reflexivity.
Qed.

(** A step that only reads leaves the script to what follows. *)
Lemma performs_bind_pure {A} K (m : M A) a (k : A -> M Z) ws s :
  m s = Some (a, s) -> performs K (k a) ws s -> performs K (x <- m ;; k x) ws s.
Proof.
  intros Hm (rc & s1 & es & Hk & H). exists rc, s1, es.
  split; [| exact H]. unfold Bind. rewrite Hm. exact Hk.
Qed.

Lemma dev_addr_word_eq hi lo bh bl ndev s :
  attached_dev s = Some ndev ->
  dev_addr ndev !! hi = Some bh -> dev_addr ndev !! lo = Some bl ->
  dev_addr_word hi lo s = Some (Z.shiftl (u16 (byte_val bh)) 8 + byte_val bl, s).
Proof.
  intros Had Hhi Hlo. unfold dev_addr_word, Bind, read_dev_addr, Return.
  rewrite Had, Hhi. cbv beta iota. rewrite Had, Hlo. reflexivity.
Qed.

(** ** The driver functions as scripts *)

(** One guarded step [ret = m; if (ret) return ret;] whose script is given
    by [lem]. *)
Ltac guarded_step lem := eapply performs_seq; [apply lem | intros].

(** The script found by the rules is the one named, up to computation. *)
Ltac same_script := vm_compute; reflexivity.

Lemma init_tstmode_performs K s :
  performs K (rockchip_fephy_init_tstmode K) tstmode_script s.
Proof.
  unfold rockchip_fephy_init_tstmode.
  eapply performs_conv.
  - repeat guarded_step performs_phy_write.
    apply performs_phy_write.
  - same_script.
Qed.

Lemma close_tstmode_performs K s :
  performs K (rockchip_fephy_close_tstmode K) [(SMI_ADDR_TSTCNTL, 0x0)] s.
Proof.
  unfold rockchip_fephy_close_tstmode.
  eapply performs_conv; [apply performs_phy_write | same_script].
Qed.

(** For any arguments: the two writes carry the value and the control
    word as the 16-bit write primitive receives them. *)
Lemma bank_write_performs K bank reg val s :
  performs K (rockchip_fephy_bank_write K bank reg val)
    [(23, u16 val); (20, u16 (control_word (u8 bank) (u32 reg)))] s.
Proof.
  unfold rockchip_fephy_bank_write. cbv zeta.
  eapply performs_conv.
  - guarded_step performs_phy_write.
    apply performs_phy_write.
  - unfold as_written. simpl. rewrite u16_idemp. reflexivity.
Qed.

(** With a bank below 32 and an offset below 2^16 nothing is cut off. *)
Lemma bank_write_banked K bank reg val v s :
  0 <= bank < 32 -> 0 <= reg < 2 ^ 16 -> u16 val = v ->
  performs K (rockchip_fephy_bank_write K bank reg val)
    (banked_write bank reg v) s.
Proof.
  intros Hb Hr <-. eapply performs_conv; [apply bank_write_performs |].
  unfold banked_write. rewrite u8_small, u32_small by lia.
  rewrite control_word_u16 by assumption. reflexivity.
Qed.

Lemma config_init_performs K s :
  performs K (rockchip_fephy_config_init K) config_init_script s.
Proof.
  unfold rockchip_fephy_config_init.
  eapply performs_conv.
  - guarded_step performs_phy_write.
    guarded_step init_tstmode_performs.
    guarded_step bank_write_performs.
    apply performs_last, close_tstmode_performs.
  - same_script.
Qed.

Lemma wol_disable_performs K s :
  performs K (rockchip_fephy_wol_disable K) wol_disable_script s.
Proof.
  unfold rockchip_fephy_wol_disable.
  eapply performs_conv.
  - guarded_step bank_write_performs.
    apply performs_last, performs_phy_write.
  - same_script.
Qed.

Lemma wol_enable_performs K s ndev b0 b1 b2 b3 b4 b5 :
  attached_dev s = Some ndev ->
  dev_addr ndev = [b0; b1; b2; b3; b4; b5] ->
  performs K (rockchip_fephy_wol_enable K)
    (wol_enable_script (byte_val b0) (byte_val b1) (byte_val b2)
       (byte_val b3) (byte_val b4) (byte_val b5)) s.
Proof.
  intros Had Hdev. unfold rockchip_fephy_wol_enable, wol_enable_script.
  assert (Hword : forall hi lo bh bl s1,
    attached_dev s1 = attached_dev s ->
    dev_addr ndev !! hi = Some bh -> dev_addr ndev !! lo = Some bl ->
    dev_addr_word hi lo s1
    = Some (Z.shiftl (u16 (byte_val bh)) 8 + byte_val bl, s1)).
  { intros hi lo bh bl s1 Hs1. apply dev_addr_word_eq. congruence. }
  assert (Hbank : forall bh bl reg s1, 0 <= reg < 2 ^ 16 ->
    performs K
      (rockchip_fephy_bank_write K BANK_WOL reg
         (Z.shiftl (u16 (byte_val bh)) 8 + byte_val bl))
      (banked_write BANK_WOL reg
         (Z.lor (Z.shiftl (byte_val bh) 8) (byte_val bl))) s1).
  { intros bh bl reg s1 Hreg.
    apply bank_write_banked; [unfold BANK_WOL; lia | exact Hreg |].
    apply dev_addr_word_val; apply byte_val_range. }
  eapply performs_bind_pure;
    [apply (Hword 4%nat 5%nat b4 b5); [reflexivity | rewrite Hdev ..]; reflexivity |].
  eapply performs_seq; [apply Hbank; lia | intros s1 Had1 _].
  eapply performs_bind_pure;
    [apply (Hword 2%nat 3%nat b2 b3); [exact Had1 | rewrite Hdev ..]; reflexivity |].
  eapply performs_seq; [apply Hbank; lia | intros s2 Had2 _].
  eapply performs_bind_pure;
    [apply (Hword 0%nat 1%nat b0 b1); [congruence | rewrite Hdev ..]; reflexivity |].
  eapply performs_seq; [apply Hbank; lia | intros s3 Had3 _].
  eapply performs_seq;
    [apply bank_write_banked; [unfold BANK_WOL; lia | lia | reflexivity] | intros].
  eapply performs_conv;
    [apply performs_last, performs_phy_write | same_script].
Qed.

(** ** Runs against the bus *)

Lemma replay_app es1 es2 m : replay (es1 ++ es2) m = replay es2 (replay es1 m).
Proof. unfold replay. apply foldl_app. Qed.

Lemma replay_ok_events ws m : replay (ok_events ws) m = write_regs ws m.
Proof.
  revert m. induction ws as [| [r v] ws IH]; intros m; [reflexivity |].
  simpl. apply IH.
Qed.

Lemma write_regs_lookup i ws : forall m,
  write_regs ws m !! i = last_write i ws (m !! i).
Proof.
  induction ws as [| [r v] ws IH]; intros m; [reflexivity |].
  change (write_regs ((r, v) :: ws) m) with (write_regs ws (<[r := v]> m)).
  rewrite IH. simpl. destruct (Z.eqb_spec r i) as [-> | Hne].
  - rewrite lookup_insert_eq. reflexivity.
  - rewrite lookup_insert_ne by exact Hne. reflexivity.
Qed.

(** A run on the bus is a run in the sense of [script_run]. *)
Lemma bus_run_script_run K ws : forall t es rc,
  bus_run K t ws = (es, rc) -> script_run ws es rc.
Proof.
  induction ws as [| [r v] ws IH]; intros t es rc H; simpl in H.
  - inversion H; subst. constructor.
  - destruct (nonzero (phy_write_rc K t r v)) eqn:E.
    + inversion H; subst. apply script_fail. apply nonzero_true. exact E.
    + destruct (bus_run K (t ++ [ev_phy_write r v (phy_write_rc K t r v)]) ws)
        as [es' rc'] eqn:Hrest.
      inversion H; subst. apply nonzero_false in E. rewrite E.
      apply script_ok. exact (IH _ _ _ Hrest).
Qed.

(** The code of every attempt is the answer of the bus to that write
    after the history so far. *)
Lemma bus_run_answers K ws : forall t es rc,
  bus_run K t ws = (es, rc) ->
  forall k r v rc', es !! k = Some (ev_phy_write r v rc') ->
    rc' = phy_write_rc K (t ++ take k es) r v.
Proof.
  induction ws as [| [r0 v0] ws IH]; intros t es rc H k r v rc' Hk;
    simpl in H.
  - inversion H; subst. destruct k; discriminate.
  - destruct (nonzero (phy_write_rc K t r0 v0)) eqn:E.
    + inversion H; subst. destruct k as [| k]; simpl in Hk.
      * inversion Hk; subst. simpl. rewrite app_nil_r. reflexivity.
      * destruct k; discriminate.
    + destruct (bus_run K (t ++ [ev_phy_write r0 v0 (phy_write_rc K t r0 v0)])
                  ws) as [es' rc''] eqn:Hrest.
      inversion H; subst. destruct k as [| k]; simpl in Hk.
      * inversion Hk; subst. simpl. rewrite app_nil_r. reflexivity.
      * rewrite (IH _ _ _ Hrest k r v rc' Hk). simpl.
        rewrite <- app_assoc. reflexivity.
Qed.

Lemma bus_run_bus_ok K ws : forall t es rc,
  bus_run K t ws = (es, rc) -> bus_ok K -> rc = 0.
Proof.
  intros t es rc H HK. revert t es rc H.
  induction ws as [| [r v] ws IH]; intros t es rc H; simpl in H.
  - inversion H; reflexivity.
  - rewrite HK in H. simpl in H.
    destruct (bus_run K (t ++ [ev_phy_write r v 0]) ws) as [es' rc'] eqn:Hrest.
    inversion H; subst. exact (IH _ _ _ Hrest).
Qed.

(** Two scripts in a row: the second runs after the events of the first,
    unless the first failed. *)
Lemma bus_run_app K ws1 ws2 : forall t,
  bus_run K t (ws1 ++ ws2)
  = let '(es1, rc1) := bus_run K t ws1 in
    if nonzero rc1 then (es1, rc1)
    else let '(es2, rc2) := bus_run K (t ++ es1) ws2 in (es1 ++ es2, rc2).
Proof.
  induction ws1 as [| [r v] ws1 IH]; intros t; simpl.
  - rewrite app_nil_r. destruct (bus_run K t ws2). reflexivity.
  - destruct (nonzero (phy_write_rc K t r v)) eqn:E.
    + rewrite E. reflexivity.
    + rewrite IH.
      destruct (bus_run K (t ++ [ev_phy_write r v (phy_write_rc K t r v)]) ws1)
        as [es1 rc1].
      destruct (nonzero rc1); [reflexivity |].
      rewrite <- app_assoc. simpl.
      destruct (bus_run K
                  (t ++ ev_phy_write r v (phy_write_rc K t r v) :: es1) ws2).
      reflexivity.
Qed.

Lemma runs_conv K m ws ws' s : runs K m ws s -> ws = ws' -> runs K m ws' s.
Proof. intros H <-. exact H. Qed.

Lemma runs_phy_write K r v s : runs K (phy_write K r v) [as_written (r, v)] s.
Proof.
  unfold runs, phy_write, as_written. cbv zeta. simpl fst. simpl snd.
  simpl bus_run.
  set (rc := phy_write_rc K (trace s) (u32 r) (u16 v)).
  destruct (nonzero rc) eqn:E.
  - exists rc, (log_event (ev_phy_write (u32 r) (u16 v) rc) s),
      [ev_phy_write (u32 r) (u16 v) rc].
    unfold replay. simpl. rewrite E. repeat split.
  - exists rc, (log_event (ev_phy_write (u32 r) (u16 v) rc)
                  (store_reg (u32 r) (u16 v) s)),
      [ev_phy_write (u32 r) (u16 v) rc].
    unfold replay. simpl. rewrite E.
    apply nonzero_false in E. rewrite E. repeat split.
Qed.

Lemma runs_seq K (m k : M Z) ws1 ws2 s :
  runs K m ws1 s ->
  (forall s1, attached_dev s1 = attached_dev s -> priv s1 = priv s ->
     runs K k ws2 s1) ->
  runs K (ret <- m ;; if nonzero ret then Return ret else k) (ws1 ++ ws2) s.
Proof.
  intros (rc1 & s1 & es1 & Hm & Htr1 & Hbus1 & Had1 & Hpr1 & Hreg1) Hk.
  unfold runs, Bind. rewrite Hm, bus_run_app, Hbus1.
  destruct (nonzero rc1) eqn:E.
  - exists rc1, s1, es1. unfold Return. repeat split; assumption.
  - destruct (Hk s1 Had1 Hpr1)
      as (rc & s2 & es2 & Hk2 & Htr2 & Hbus2 & Had2 & Hpr2 & Hreg2).
    exists rc, s2, (es1 ++ es2).
    split; [exact Hk2 |].
    split; [rewrite Htr2, Htr1, app_assoc; reflexivity |].
    split; [rewrite <- Htr1, Hbus2; reflexivity |].
    split; [congruence |]. split; [congruence |].
    rewrite replay_app, <- Hreg1. exact Hreg2.
Qed.

Lemma runs_last K (m : M Z) ws s :
  runs K m ws s ->
  runs K (ret <- m ;; if nonzero ret then Return ret else Return ret) ws s.
Proof.
  intros (rc & s1 & es & Hm & H). exists rc, s1, es.
  split; [| exact H].
  unfold Bind. rewrite Hm. destruct (nonzero rc); reflexivity.
Qed.

Lemma runs_bind_pure {A} K (m : M A) a (k : A -> M Z) ws s :
  m s = Some (a, s) -> runs K (k a) ws s -> runs K (x <- m ;; k x) ws s.
Proof.
  intros Hm (rc & s1 & es & Hk & H). exists rc, s1, es.
  split; [| exact H]. unfold Bind. rewrite Hm. exact Hk.
Qed.

Ltac bus_step lem := eapply runs_seq; [apply lem | intros].

Lemma init_tstmode_runs K s :
  runs K (rockchip_fephy_init_tstmode K) tstmode_script s.
Proof.
  unfold rockchip_fephy_init_tstmode.
  eapply runs_conv.
  - repeat bus_step runs_phy_write.
    apply runs_phy_write.
  - same_script.
Qed.

Lemma close_tstmode_runs K s :
  runs K (rockchip_fephy_close_tstmode K) [(SMI_ADDR_TSTCNTL, 0x0)] s.
Proof.
  unfold rockchip_fephy_close_tstmode.
  eapply runs_conv; [apply runs_phy_write | same_script].
Qed.

Lemma bank_write_runs K bank reg val s :
  runs K (rockchip_fephy_bank_write K bank reg val)
    [(23, u16 val); (20, u16 (control_word (u8 bank) (u32 reg)))] s.
Proof.
  unfold rockchip_fephy_bank_write. cbv zeta.
  eapply runs_conv.
  - bus_step runs_phy_write.
    apply runs_phy_write.
  - unfold as_written. simpl. rewrite u16_idemp. reflexivity.
Qed.

Lemma bank_write_runs_banked K bank reg val v s :
  0 <= bank < 32 -> 0 <= reg < 2 ^ 16 -> u16 val = v ->
  runs K (rockchip_fephy_bank_write K bank reg val)
    (banked_write bank reg v) s.
Proof.
  intros Hb Hr <-. eapply runs_conv; [apply bank_write_runs |].
  unfold banked_write. rewrite u8_small, u32_small by lia.
  rewrite control_word_u16 by assumption. reflexivity.
Qed.

Lemma config_init_runs K s :
  runs K (rockchip_fephy_config_init K) config_init_script s.
Proof.
  unfold rockchip_fephy_config_init.
  eapply runs_conv.
  - bus_step runs_phy_write.
    bus_step init_tstmode_runs.
    bus_step bank_write_runs.
    apply runs_last, close_tstmode_runs.
  - same_script.
Qed.

Lemma wol_enable_runs K s ndev b0 b1 b2 b3 b4 b5 :
  attached_dev s = Some ndev ->
  dev_addr ndev = [b0; b1; b2; b3; b4; b5] ->
  runs K (rockchip_fephy_wol_enable K)
    (wol_enable_script (byte_val b0) (byte_val b1) (byte_val b2)
       (byte_val b3) (byte_val b4) (byte_val b5)) s.
Proof.
  intros Had Hdev. unfold rockchip_fephy_wol_enable, wol_enable_script.
  assert (Hword : forall hi lo bh bl s1,
    attached_dev s1 = attached_dev s ->
    dev_addr ndev !! hi = Some bh -> dev_addr ndev !! lo = Some bl ->
    dev_addr_word hi lo s1
    = Some (Z.shiftl (u16 (byte_val bh)) 8 + byte_val bl, s1)).
  { intros hi lo bh bl s1 Hs1. apply dev_addr_word_eq. congruence. }
  assert (Hbank : forall bh bl reg s1, 0 <= reg < 2 ^ 16 ->
    runs K
      (rockchip_fephy_bank_write K BANK_WOL reg
         (Z.shiftl (u16 (byte_val bh)) 8 + byte_val bl))
      (banked_write BANK_WOL reg
         (Z.lor (Z.shiftl (byte_val bh) 8) (byte_val bl))) s1).
  { intros bh bl reg s1 Hreg.
    apply bank_write_runs_banked; [unfold BANK_WOL; lia | exact Hreg |].
    apply dev_addr_word_val; apply byte_val_range. }
  eapply runs_bind_pure;
    [apply (Hword 4%nat 5%nat b4 b5); [reflexivity | rewrite Hdev ..]; reflexivity |].
  eapply runs_seq; [apply Hbank; lia | intros s1 Had1 _].
  eapply runs_bind_pure;
    [apply (Hword 2%nat 3%nat b2 b3); [exact Had1 | rewrite Hdev ..]; reflexivity |].
  eapply runs_seq; [apply Hbank; lia | intros s2 Had2 _].
  eapply runs_bind_pure;
    [apply (Hword 0%nat 1%nat b0 b1); [congruence | rewrite Hdev ..]; reflexivity |].
  eapply runs_seq; [apply Hbank; lia | intros s3 Had3 _].
  eapply runs_seq;
    [apply bank_write_runs_banked; [unfold BANK_WOL; lia | lia | reflexivity]
    | intros].
  eapply runs_conv; [apply runs_last, runs_phy_write | same_script].
Qed.

(** ** Test-mode bank controller *)

(** C6: every call of enter-test-mode ([rockchip_fephy_init_tstmode])
    returns, having attempted at most 4 writes, all of them to the
    test-mode control register (20), with the values of
    [0x0, 0x400, 0x0, 0x400] taken in order; when it succeeds exactly these
    four writes happened; a write that fails is the last one attempted and
    its error code is the result.  The code of each attempt is what the bus
    answered to it, the attempts and the result are those of the four
    writes on the bus, and the register file holds the writes that
    succeeded. *)
Theorem init_tstmode_writes K s :
  exists rc s' es,
    rockchip_fephy_init_tstmode K s = Some (rc, s') /\
    trace s' = trace s ++ es /\
    (length es <= 4)%nat /\
    (forall e, e ∈ es -> exists v rc', e = ev_phy_write 20 v rc') /\
    writes_of es
    = take (length es) [(20, 0x0); (20, 0x400); (20, 0x0); (20, 0x400)] /\
    (rc = 0 ->
     es = [ev_phy_write 20 0x0 0; ev_phy_write 20 0x400 0;
           ev_phy_write 20 0x0 0; ev_phy_write 20 0x400 0]) /\
    (forall k r v rc', es !! k = Some (ev_phy_write r v rc') -> rc' <> 0 ->
       length es = S k /\ rc = rc') /\
    (rc <> 0 -> exists k r v,
       tstmode_script !! k = Some (r, v) /\
       es = ok_events (take k tstmode_script) ++ [ev_phy_write r v rc]) /\
    (bus_ok K -> rc = 0) /\
    bus_run K (trace s) [(20, 0x0); (20, 0x400); (20, 0x0); (20, 0x400)]
    = (es, rc) /\
    (forall k r v rc', es !! k = Some (ev_phy_write r v rc') ->
       rc' = phy_write_rc K (trace s ++ take k es) r v) /\
    mdio_regs s' = replay es (mdio_regs s) /\
    (rc = 0 -> mdio_regs s' !! 20 = Some 0x400) /\
    attached_dev s' = attached_dev s /\
    priv s' = priv s.
Proof.
  destruct (init_tstmode_runs K s)
    as (rc & s' & es & Hrun & Htr & Hbus & Had & Hpr & Hregs).
  pose proof (bus_run_script_run _ _ _ _ _ Hbus) as Hsr.
  exists rc, s', es.
  split; [exact Hrun |]. split; [exact Htr |].
  split; [apply (script_run_length _ _ _ Hsr) |].
  split.
  { intros e He.
    destruct (script_run_events _ _ _ Hsr e He) as (r & v & rc' & -> & Hin).
    exists v, rc'. f_equal.
    unfold tstmode_script, SMI_ADDR_TSTCNTL in Hin.
    repeat (apply elem_of_cons in Hin as [Hin | Hin]; [congruence |]).
    inversion Hin. }
  split; [apply (script_run_prefix _ _ _ Hsr) |].
  split; [intros ->; apply (script_run_success _ _ Hsr) |].
  split; [apply (script_run_stops _ _ _ Hsr) |].
  split; [apply (script_run_failure _ _ _ Hsr) |].
  split; [apply (bus_run_bus_ok _ _ _ _ _ Hbus) |].
  split; [exact Hbus |].
  split; [apply (bus_run_answers _ _ _ _ _ Hbus) |].
  split; [exact Hregs |].
  split; [| split; assumption].
  intros ->. rewrite Hregs, (script_run_success _ _ Hsr), replay_ok_events.
  rewrite write_regs_lookup. reflexivity.
Qed.

(** C7: for every bank below 32, offset below 2^16 and 16-bit value (every
    bank identifier and banked-register offset of the chip), a banked write
    ([rockchip_fephy_bank_write]) issues two register writes: first the
    value to the test-mode write-data register (23), then the control word,
    write-command flag bits OR (bank << 11) OR (offset << 0), to the
    test-mode control register (20); when the first write fails the second
    is not attempted and the error is the result.  Which of the two happens
    is decided by what the bus answers, and the registers hold what was
    written. *)
Theorem bank_write_two_writes K s bank reg val :
  0 <= bank < 32 -> 0 <= reg < 2 ^ 16 -> 0 <= val < 2 ^ 16 ->
  exists rc s' es,
    rockchip_fephy_bank_write K bank reg val s = Some (rc, s') /\
    trace s' = trace s ++ es /\
    (es = [ev_phy_write 23 val 0;
           ev_phy_write 20
             (Z.lor (Z.lor TSTCNTL_WR (Z.shiftl bank 11)) (Z.shiftl reg 0))
             rc]
     \/ (rc <> 0 /\ es = [ev_phy_write 23 val rc])) /\
    (phy_write_rc K (trace s) 23 val <> 0 ->
     rc = phy_write_rc K (trace s) 23 val /\
     es = [ev_phy_write 23 val rc] /\
     mdio_regs s' = mdio_regs s) /\
    (phy_write_rc K (trace s) 23 val = 0 ->
     rc = phy_write_rc K (trace s ++ [ev_phy_write 23 val 0]) 20
            (Z.lor (Z.lor TSTCNTL_WR (Z.shiftl bank 11)) (Z.shiftl reg 0)) /\
     es = [ev_phy_write 23 val 0;
           ev_phy_write 20
             (Z.lor (Z.lor TSTCNTL_WR (Z.shiftl bank 11)) (Z.shiftl reg 0))
             rc] /\
     mdio_regs s' !! 23 = Some val) /\
    (rc = 0 ->
     mdio_regs s' !! 23 = Some val /\
     mdio_regs s' !! 20
     = Some (Z.lor (Z.lor TSTCNTL_WR (Z.shiftl bank 11)) (Z.shiftl reg 0))) /\
    mdio_regs s' = replay es (mdio_regs s) /\
    (bus_ok K -> rc = 0) /\
    attached_dev s' = attached_dev s /\
    priv s' = priv s.
Proof.
  intros Hb Hr Hv.
  destruct (bank_write_runs_banked K bank reg val val s Hb Hr
              (u16_small val Hv))
    as (rc & s' & es & Hrun & Htr & Hbus & Had & Hpr & Hregs).
  pose proof (bus_run_script_run _ _ _ _ _ Hbus) as Hsr.
  exists rc, s', es.
  split; [exact Hrun |]. split; [exact Htr |].
  unfold banked_write, control_word in Hbus, Hsr.
  set (cw := Z.lor (Z.lor TSTCNTL_WR (Z.shiftl bank 11)) (Z.shiftl reg 0))
    in *.
  split.
  { inversion Hsr as [| r0 v0 ws0 es0 rc0 Hsr2 | r0 v0 ws0 rc0 Hne]; subst.
    - left.
      inversion Hsr2 as [| r1 v1 ws1 es1 rc1 Hsr3 | r1 v1 ws1 rc1 Hne]; subst.
      + inversion Hsr3; subst. reflexivity.
      + reflexivity.
    - right. split; [exact Hne | reflexivity]. }
  pose proof Hbus as Hbus'. simpl in Hbus.
  split.
  { intros Hne. apply nonzero_true in Hne. rewrite Hne in Hbus.
    inversion Hbus; subst. split; [reflexivity |]. split; [reflexivity |].
    rewrite Hregs. unfold replay. simpl. rewrite Hne. reflexivity. }
  split.
  { intros H0. rewrite H0 in Hbus. simpl in Hbus.
    destruct (nonzero (phy_write_rc K (trace s ++ [ev_phy_write 23 val 0])
                         20 cw)) eqn:E.
    - inversion Hbus; subst; clear Hbus.
      split; [reflexivity |]. split; [reflexivity |].
      rewrite Hregs. unfold replay. simpl. rewrite E.
      apply lookup_insert_eq.
    - pose proof (proj1 (nonzero_false _) E) as E0.
      rewrite E0 in Hbus. inversion Hbus; subst; clear Hbus.
      split; [symmetry; exact E0 |]. split; [reflexivity |].
      rewrite Hregs. unfold replay. simpl.
      rewrite lookup_insert_ne by lia. apply lookup_insert_eq. }
  split.
  { intros ->. rewrite Hregs, (script_run_success _ _ Hsr), replay_ok_events.
    rewrite !write_regs_lookup. split; reflexivity. }
  split; [exact Hregs |].
  split; [apply (bus_run_bus_ok _ _ _ _ _ Hbus') |].
  split; assumption.
Qed.

(** The banked write of the WOL enable mask, on a device that answers. *)
Lemma bank_write_two_writes_witness :
  exists rc s' es,
    rockchip_fephy_bank_write (kernel_ok 7) BANK_WOL 0x3 0xf phydev_wol
    = Some (rc, s') /\
    trace s' = trace phydev_wol ++ es /\
    (es = [ev_phy_write 23 0xf 0;
           ev_phy_write 20
             (Z.lor (Z.lor TSTCNTL_WR (Z.shiftl BANK_WOL 11))
                (Z.shiftl 0x3 0)) rc]
     \/ (rc <> 0 /\ es = [ev_phy_write 23 0xf rc])) /\
    (rc = 0 ->
     mdio_regs s' !! 23 = Some 0xf /\
     mdio_regs s' !! 20
     = Some (Z.lor (Z.lor TSTCNTL_WR (Z.shiftl BANK_WOL 11))
               (Z.shiftl 0x3 0))) /\
    (bus_ok (kernel_ok 7) -> rc = 0).
Proof.
  destruct (bank_write_two_writes (kernel_ok 7) phydev_wol BANK_WOL 0x3 0xf)
    as (rc & s' & es & Hrun & Htr & Hes & _ & _ & Hok & _ & Hbus & _);
    [unfold BANK_WOL; lia | lia | lia |].
  exists rc, s', es. repeat split; try assumption; apply Hok; assumption.
Defined.

(** Outside that range the control word does not fit the 16-bit register:
    for the WOL bank and offset 0x10000 the word of the formula is 0x14C00
    and the write carries its low 16 bits, 0x4C00. *)
Lemma bank_write_cuts_wide_offset :
  observe (rockchip_fephy_bank_write (kernel_ok 7) BANK_WOL 0x10000 0x0
             phydev_wol)
  = Some (0, [ev_phy_write 23 0x0 0; ev_phy_write 20 0x4C00 0]) /\
  Z.lor (Z.lor TSTCNTL_WR (Z.shiftl BANK_WOL 11)) (Z.shiftl 0x10000 0)
  = 0x14C00.
Proof. split; vm_compute; reflexivity. Qed.

(** ** Device initialization *)

(** C4: the initialization sequence ([rockchip_fephy_config_init]),
    from any state, runs the script LED control = 0x7aa; 0x0, 0x400, 0x0,
    0x400 to the test-mode control register; the two writes of the banked
    write of 0xC to (DSP0, 0x18); 0x0 to the test-mode control register.
    With no write failure these are exactly 8 writes in this order and the
    result is 0; a step that fails is the last write attempted and its
    error is the result.  The code of each attempt is what the bus answered
    to it, the attempts and the result are those of the script on the bus,
    and the register file holds the writes that succeeded. *)
Theorem config_init_sequence K s :
  exists rc s' es,
    rockchip_fephy_config_init K s = Some (rc, s') /\
    trace s' = trace s ++ es /\
    script_run
      ([(25, 0x7aa); (20, 0x0); (20, 0x400); (20, 0x0); (20, 0x400)]
       ++ banked_write BANK_DSP0 0x18 0xC ++ [(20, 0x0)]) es rc /\
    banked_write BANK_DSP0 0x18 0xC = [(23, 0xC); (20, 0x4418)] /\
    (bus_ok K -> rc = 0) /\
    (rc = 0 ->
     length es = 8%nat /\
     es = [ev_phy_write 25 0x7aa 0;
           ev_phy_write 20 0x0 0; ev_phy_write 20 0x400 0;
           ev_phy_write 20 0x0 0; ev_phy_write 20 0x400 0;
           ev_phy_write 23 0xC 0; ev_phy_write 20 0x4418 0;
           ev_phy_write 20 0x0 0]) /\
    (forall k r v rc', es !! k = Some (ev_phy_write r v rc') -> rc' <> 0 ->
       length es = S k /\ rc = rc') /\
    (rc <> 0 -> exists k r v,
       config_init_script !! k = Some (r, v) /\
       es = ok_events (take k config_init_script) ++ [ev_phy_write r v rc]) /\
    bus_run K (trace s)
      [(25, 0x7aa); (20, 0x0); (20, 0x400); (20, 0x0); (20, 0x400);
       (23, 0xC); (20, 0x4418); (20, 0x0)]
    = (es, rc) /\
    (forall k r v rc', es !! k = Some (ev_phy_write r v rc') ->
       rc' = phy_write_rc K (trace s ++ take k es) r v) /\
    mdio_regs s' = replay es (mdio_regs s) /\
    (rc = 0 ->
     mdio_regs s' !! 25 = Some 0x7aa /\
     mdio_regs s' !! 23 = Some 0xC /\
     mdio_regs s' !! 20 = Some 0x0) /\
    attached_dev s' = attached_dev s /\
    priv s' = priv s.
Proof.
  destruct (config_init_runs K s)
    as (rc & s' & es & Hrun & Htr & Hbus & Had & Hpr & Hregs).
  pose proof (bus_run_script_run _ _ _ _ _ Hbus) as Hsr.
  exists rc, s', es.
  split; [exact Hrun |]. split; [exact Htr |].
  split; [exact Hsr |]. split; [reflexivity |].
  split; [apply (bus_run_bus_ok _ _ _ _ _ Hbus) |].
  split.
  { intros ->. rewrite (script_run_success _ _ Hsr). split; reflexivity. }
  split; [apply (script_run_stops _ _ _ Hsr) |].
  split; [apply (script_run_failure _ _ _ Hsr) |].
  split; [exact Hbus |].
  split; [apply (bus_run_answers _ _ _ _ _ Hbus) |].
  split; [exact Hregs |].
  split; [| split; assumption].
  intros ->. rewrite Hregs, (script_run_success _ _ Hsr), replay_ok_events.
  rewrite !write_regs_lookup. repeat split; reflexivity.
Qed.

(** ** Wake-on-LAN *)

(** C1: for every 6-byte hardware address I of the attached interface,
    WOL enable ([rockchip_fephy_wol_enable]) runs, in order, the banked
    writes (WOL, 0) = (I[4]<<8)|I[5], (WOL, 1) = (I[2]<<8)|I[3],
    (WOL, 2) = (I[0]<<8)|I[1], (WOL, 3) = 0xF and then the write of 0xE00 to
    the interrupt-mask register (30); all of them happen when no write
    fails.  The code of each attempt is what the bus answered to it, the
    attempts and the result are those of these writes on the bus, and the
    register file holds the writes that succeeded.  For
    I = 00:11:22:33:44:55 the banked values are 0x4455, 0x2233, 0x0011 and
    0xF. *)
Theorem wol_enable_writes :
  (forall K s ndev b0 b1 b2 b3 b4 b5,
     attached_dev s = Some ndev ->
     dev_addr ndev = [b0; b1; b2; b3; b4; b5] ->
     let I := fun b => Z.of_N (Byte.to_N b) in
     exists rc s' es,
       rockchip_fephy_wol_enable K s = Some (rc, s') /\
       trace s' = trace s ++ es /\
       script_run
         (banked_write BANK_WOL 0 (Z.lor (Z.shiftl (I b4) 8) (I b5))
          ++ banked_write BANK_WOL 1 (Z.lor (Z.shiftl (I b2) 8) (I b3))
          ++ banked_write BANK_WOL 2 (Z.lor (Z.shiftl (I b0) 8) (I b1))
          ++ banked_write BANK_WOL 3 0xF
          ++ [(30, 0xE00)]) es rc /\
       (bus_ok K -> rc = 0) /\
       (rc = 0 ->
        es = ok_events
          (banked_write BANK_WOL 0 (Z.lor (Z.shiftl (I b4) 8) (I b5))
           ++ banked_write BANK_WOL 1 (Z.lor (Z.shiftl (I b2) 8) (I b3))
           ++ banked_write BANK_WOL 2 (Z.lor (Z.shiftl (I b0) 8) (I b1))
           ++ banked_write BANK_WOL 3 0xF
           ++ [(30, 0xE00)])) /\
       bus_run K (trace s)
         (banked_write BANK_WOL 0 (Z.lor (Z.shiftl (I b4) 8) (I b5))
          ++ banked_write BANK_WOL 1 (Z.lor (Z.shiftl (I b2) 8) (I b3))
          ++ banked_write BANK_WOL 2 (Z.lor (Z.shiftl (I b0) 8) (I b1))
          ++ banked_write BANK_WOL 3 0xF
          ++ [(30, 0xE00)])
       = (es, rc) /\
       (forall k r v rc', es !! k = Some (ev_phy_write r v rc') ->
          rc' = phy_write_rc K (trace s ++ take k es) r v) /\
       mdio_regs s' = replay es (mdio_regs s) /\
       (rc = 0 ->
        mdio_regs s' !! 23 = Some 0xF /\
        mdio_regs s' !! 20 = Some 0x4C03 /\
        mdio_regs s' !! 30 = Some 0xE00) /\
       attached_dev s' = attached_dev s /\
       priv s' = priv s)
  /\
  (forall K s ndev,
     attached_dev s = Some ndev ->
     dev_addr ndev = [x00; x11; x22; x33; x44; x55]%byte ->
     exists rc s' es,
       rockchip_fephy_wol_enable K s = Some (rc, s') /\
       trace s' = trace s ++ es /\
       script_run
         (banked_write BANK_WOL 0 0x4455 ++ banked_write BANK_WOL 1 0x2233
          ++ banked_write BANK_WOL 2 0x0011 ++ banked_write BANK_WOL 3 0xF
          ++ [(30, 0xE00)]) es rc /\
       (bus_ok K ->
        rc = 0 /\
        es = [ev_phy_write 23 0x4455 0; ev_phy_write 20 0x4C00 0;
              ev_phy_write 23 0x2233 0; ev_phy_write 20 0x4C01 0;
              ev_phy_write 23 0x0011 0; ev_phy_write 20 0x4C02 0;
              ev_phy_write 23 0xF 0; ev_phy_write 20 0x4C03 0;
              ev_phy_write 30 0xE00 0]) /\
       bus_run K (trace s)
         [(23, 0x4455); (20, 0x4C00); (23, 0x2233); (20, 0x4C01);
          (23, 0x0011); (20, 0x4C02); (23, 0xF); (20, 0x4C03);
          (30, 0xE00)]
       = (es, rc) /\
       mdio_regs s' = replay es (mdio_regs s)).
Proof.
  split.
  - intros K s ndev b0 b1 b2 b3 b4 b5 Had Hdev I.
    destruct (wol_enable_runs K s ndev b0 b1 b2 b3 b4 b5 Had Hdev)
      as (rc & s' & es & Hrun & Htr & Hbus & Had' & Hpr & Hregs).
    pose proof (bus_run_script_run _ _ _ _ _ Hbus) as Hsr.
    exists rc, s', es.
    split; [exact Hrun |]. split; [exact Htr |].
    split; [exact Hsr |].
    split; [apply (bus_run_bus_ok _ _ _ _ _ Hbus) |].
    split; [intros ->; apply (script_run_success _ _ Hsr) |].
    split; [exact Hbus |].
    split; [apply (bus_run_answers _ _ _ _ _ Hbus) |].
    split; [exact Hregs |].
    split; [| split; assumption].
    intros ->. rewrite Hregs, (script_run_success _ _ Hsr), replay_ok_events.
    rewrite !write_regs_lookup. repeat split; reflexivity.
  - intros K s ndev Had Hdev.
    destruct (wol_enable_runs K s ndev _ _ _ _ _ _ Had Hdev)
      as (rc & s' & es & Hrun & Htr & Hbus & _ & _ & Hregs).
    pose proof (bus_run_script_run _ _ _ _ _ Hbus) as Hsr.
    exists rc, s', es.
    split; [exact Hrun |]. split; [exact Htr |].
    split; [exact Hsr |].
    split.
    { intros HK. pose proof (bus_run_bus_ok _ _ _ _ _ Hbus HK) as Hrc.
      subst rc. split; [reflexivity |].
      rewrite (script_run_success _ _ Hsr). reflexivity. }
    split; [exact Hbus | exact Hregs].
Qed.

(** WOL enable for the interface 00:11:22:33:44:55 on a probed device. *)
Lemma wol_enable_writes_witness :
  exists rc s' es,
    rockchip_fephy_wol_enable (kernel_ok 7) phydev_wol = Some (rc, s') /\
    trace s' = trace phydev_wol ++ es /\
    script_run
      (banked_write BANK_WOL 0 0x4455 ++ banked_write BANK_WOL 1 0x2233
       ++ banked_write BANK_WOL 2 0x0011 ++ banked_write BANK_WOL 3 0xF
       ++ [(30, 0xE00)]) es rc /\
    (bus_ok (kernel_ok 7) -> rc = 0) /\
    mdio_regs s' = replay es (mdio_regs phydev_wol).
Proof.
  destruct (proj1 wol_enable_writes (kernel_ok 7) phydev_wol ndev_example
              x00 x11 x22 x33 x44 x55 eq_refl eq_refl)%byte
    as (rc & s' & es & Hrun & Htr & Hsr & Hok & _ & _ & _ & Hregs & _).
  exists rc, s', es. repeat split; assumption.
Defined.

(** C8: WOL disable ([rockchip_fephy_wol_disable]), from any state, runs
    the banked write of 0x0 to (WOL, 0x3) followed by the write of 0x0 to the
    interrupt-mask register (30); a second call right after the first runs
    the same script, and when both succeed the second call repeats the
    writes of the first and leaves the register file as the first call
    left it. *)
Theorem wol_disable_idempotent K s :
  exists rc1 s1 es1 rc2 s2 es2,
    rockchip_fephy_wol_disable K s = Some (rc1, s1) /\
    trace s1 = trace s ++ es1 /\
    script_run (banked_write BANK_WOL 0x3 0x0 ++ [(30, 0x0)]) es1 rc1 /\
    rockchip_fephy_wol_disable K s1 = Some (rc2, s2) /\
    trace s2 = trace s1 ++ es2 /\
    script_run (banked_write BANK_WOL 0x3 0x0 ++ [(30, 0x0)]) es2 rc2 /\
    (bus_ok K -> rc1 = 0 /\ rc2 = 0) /\
    (rc1 = 0 -> rc2 = 0 ->
     es1 = [ev_phy_write 23 0x0 0; ev_phy_write 20 0x4C03 0;
            ev_phy_write 30 0x0 0] /\
     es2 = es1 /\
     mdio_regs s2 = mdio_regs s1 /\
     mdio_regs s1 !! 23 = Some 0x0 /\
     mdio_regs s1 !! 20 = Some 0x4C03 /\
     mdio_regs s1 !! 30 = Some 0x0).
Proof.
  destruct (wol_disable_performs K s)
    as (rc1 & s1 & es1 & Hrun1 & Htr1 & Hsr1 & _ & _ & Hreg1 & Hok1).
  destruct (wol_disable_performs K s1)
    as (rc2 & s2 & es2 & Hrun2 & Htr2 & Hsr2 & _ & _ & Hreg2 & Hok2).
  exists rc1, s1, es1, rc2, s2, es2.
  split; [exact Hrun1 |]. split; [exact Htr1 |]. split; [exact Hsr1 |].
  split; [exact Hrun2 |]. split; [exact Htr2 |]. split; [exact Hsr2 |].
  split; [intros HK; split; [apply Hok1 | apply Hok2]; exact HK |].
  intros -> ->.
  rewrite (script_run_success _ _ Hsr1), (script_run_success _ _ Hsr2).
  split; [reflexivity |]. split; [reflexivity |].
  rewrite (Hreg2 eq_refl), (Hreg1 eq_refl).
  unfold wol_disable_script, write_regs. simpl.
  split.
  { apply map_eq. intros i. rewrite !lookup_insert.
    repeat case_decide; try reflexivity; congruence. }
  rewrite !lookup_insert. repeat case_decide; try congruence.
  repeat split; reflexivity.
Qed.

(** ** Power-state lifecycle *)



(** ** Probe *)

(** C9: when memory for the instance state is there and the lookup of
    the "wol_irq" interrupt answers -EPROBE_DEFER, probe returns
    -EPROBE_DEFER, the value of the lookup; it has made no call to register
    a handler or to touch the interrupt line, and the instance state holds
    no bound wake line (the stored [wol_irq] is not positive). *)
Theorem probe_defer K s :
  devm_kzalloc_ok K (trace s) = true ->
  of_irq_get_byname_rv K (trace s ++ [ev_devm_kzalloc true]) "wol_irq"
  = - EPROBE_DEFER ->
  exists s' p,
    rockchip_fephy_probe K s = Some (- EPROBE_DEFER, s') /\
    trace s'
    = trace s ++ [ev_devm_kzalloc true;
                  ev_of_irq_get_byname "wol_irq" (- EPROBE_DEFER)] /\
    priv s' = Some p /\
    wol_irq p = - EPROBE_DEFER /\
    (0 <? wol_irq p) = false /\
    priv_phydev p = false.
Proof.
  intros Hmem Hirq.
  unfold rockchip_fephy_probe, Bind, devm_kzalloc, set_priv,
    of_irq_get_byname.
  rewrite Hmem. cbn [negb trace with_priv log_event]. rewrite Hirq. rewrite Z.eqb_refl. unfold Return.
  eexists _, _. split; [reflexivity |].
  split; [simpl; rewrite <- app_assoc; reflexivity |].
  split; [reflexivity |]. repeat split.
Qed.

(** Probe on a kernel whose interrupt lookup defers. *)
Lemma probe_defer_witness :
  exists s' p,
    rockchip_fephy_probe (kernel_ok (- EPROBE_DEFER)) phydev_fresh
    = Some (- EPROBE_DEFER, s') /\
    trace s'
    = trace phydev_fresh
        ++ [ev_devm_kzalloc true;
            ev_of_irq_get_byname "wol_irq" (- EPROBE_DEFER)] /\
    priv s' = Some p /\
    wol_irq p = - EPROBE_DEFER /\
    (0 <? wol_irq p) = false /\
    priv_phydev p = false.
Proof.
  apply (probe_defer (kernel_ok (- EPROBE_DEFER)) phydev_fresh);
    reflexivity.
Defined.

(** C10: when the lookup of the "wol_irq" interrupt answers a non-positive
    value other than -EPROBE_DEFER, probe returns 0 without registering a
    handler, and on the instance it leaves, suspend and resume are exactly
    generic suspend and generic resume: no register is written. *)
Theorem probe_without_wake_line K s irq :
  devm_kzalloc_ok K (trace s) = true ->
  of_irq_get_byname_rv K (trace s ++ [ev_devm_kzalloc true]) "wol_irq" = irq ->
  irq <= 0 -> irq <> - EPROBE_DEFER ->
  exists s',
    rockchip_fephy_probe K s = Some (0, s') /\
    trace s'
    = trace s ++ [ev_devm_kzalloc true; ev_of_irq_get_byname "wol_irq" irq] /\
    priv s' = Some {| priv_phydev := true; wol_irq := irq |} /\
    (forall s2, priv s2 = priv s' ->
       rockchip_fephy_suspend K s2
       = Some (genphy_suspend_rc K (trace s2),
               log_event (ev_genphy_suspend (genphy_suspend_rc K (trace s2))) s2)
       /\
       rockchip_fephy_resume K s2
       = Some (genphy_resume_rc K (trace s2),
               log_event (ev_genphy_resume (genphy_resume_rc K (trace s2))) s2)).
Proof.
  intros Hmem Hirq Hle Hne.
  unfold rockchip_fephy_probe, Bind, devm_kzalloc, set_priv,
    of_irq_get_byname.
  rewrite Hmem. cbn [negb trace with_priv log_event]. rewrite Hirq.
  destruct (Z.eqb_spec irq (- EPROBE_DEFER)) as [Heq | _]; [contradiction |].
  destruct (Z.ltb_spec 0 irq) as [Hlt | _]; [lia |].
  unfold Return. eexists. split; [reflexivity |].
  split; [simpl; rewrite <- app_assoc; reflexivity |].
  split; [reflexivity |].
  intros s2 Hs2. simpl in Hs2.
  unfold rockchip_fephy_suspend, rockchip_fephy_resume, Bind, deref_priv.
  rewrite Hs2. unfold Return at 1 3. cbn [wol_irq].
  destruct (Z.ltb_spec 0 irq) as [Hlt | _]; [lia |].
  split; reflexivity.
Qed.

(** Probe on a kernel that has no "wol_irq" interrupt (-EINVAL, -22). *)
Lemma probe_without_wake_line_witness :
  exists s',
    rockchip_fephy_probe (kernel_ok (-22)) phydev_fresh = Some (0, s') /\
    trace s'
    = trace phydev_fresh
        ++ [ev_devm_kzalloc true; ev_of_irq_get_byname "wol_irq" (-22)] /\
    priv s' = Some {| priv_phydev := true; wol_irq := -22 |}.
Proof.
  destruct (probe_without_wake_line (kernel_ok (-22)) phydev_fresh (-22))
    as (s' & Hrun & Htr & Hpriv & _);
    [reflexivity | reflexivity | lia | unfold EPROBE_DEFER; lia |].
  exists s'. repeat split; assumption.
Defined.

(** ** Where the driver departs from the test-mode and error disciplines *)

(** Whatever the bus answers and whatever the address, the writes of WOL
    enable to the test-mode control register are the four control words of
    its banked writes: none of them is the enable value 0x400 or the
    disable value 0x0 that enter and exit test mode. *)
Lemma wol_enable_never_switches_tstmode K s ndev b0 b1 b2 b3 b4 b5 :
  attached_dev s = Some ndev ->
  dev_addr ndev = [b0; b1; b2; b3; b4; b5] ->
  exists rc s' es,
    rockchip_fephy_wol_enable K s = Some (rc, s') /\
    trace s' = trace s ++ es /\
    forall e, e ∈ es ->
      exists r v rc', e = ev_phy_write r v rc' /\
        (r = SMI_ADDR_TSTCNTL ->
         v ∈ [0x4C00; 0x4C01; 0x4C02; 0x4C03] /\
         v <> TSTMODE_ENABLE /\ v <> TSTMODE_DISABLE).
Proof.
  intros Had Hdev.
  destruct (wol_enable_performs K s ndev b0 b1 b2 b3 b4 b5 Had Hdev)
    as (rc & s' & es & Hrun & Htr & Hsr & _).
  exists rc, s', es. split; [exact Hrun |]. split; [exact Htr |].
  intros e He.
  destruct (script_run_events _ _ _ Hsr e He) as (r & v & rc' & -> & Hin).
  exists r, v, rc'. split; [reflexivity |]. intros ->.
  unfold wol_enable_script, banked_write in Hin. simpl in Hin.
  unfold SMI_ADDR_TSTCNTL, TSTMODE_ENABLE, TSTMODE_DISABLE in *.
  repeat (apply elem_of_cons in Hin as [Hin | Hin];
          [inversion Hin; subst; clear Hin;
           try (split; [| split; discriminate]) |]).
  - left.
  - right; left.
  - do 2 right; left.
  - do 3 right; left.
  - inversion Hin.
Qed.

(** C2 (not met by the code): on the probed example device with a bus
    that never fails, WOL enable makes its four banked writes and the
    interrupt-mask write and nothing else: no 0x0, 0x400, 0x0, 0x400 to the
    test-mode control register before them and no 0x0 after them, in
    suspend too; the control register is left at 0x4C03, with the test-mode
    enable bit 0x400 set.  The initialization sequence, for comparison,
    brackets its banked write and leaves the register at 0x0. *)
Theorem wol_enable_without_tstmode :
  observe (rockchip_fephy_wol_enable (kernel_ok 7) phydev_wol)
  = Some (0, [ev_phy_write 23 0x4455 0; ev_phy_write 20 0x4C00 0;
              ev_phy_write 23 0x2233 0; ev_phy_write 20 0x4C01 0;
              ev_phy_write 23 0x0011 0; ev_phy_write 20 0x4C02 0;
              ev_phy_write 23 0xF 0; ev_phy_write 20 0x4C03 0;
              ev_phy_write 30 0xE00 0]) /\
  observe (rockchip_fephy_suspend (kernel_ok 7) phydev_wol)
  = Some (0, [ev_phy_write 23 0x4455 0; ev_phy_write 20 0x4C00 0;
              ev_phy_write 23 0x2233 0; ev_phy_write 20 0x4C01 0;
              ev_phy_write 23 0x0011 0; ev_phy_write 20 0x4C02 0;
              ev_phy_write 23 0xF 0; ev_phy_write 20 0x4C03 0;
              ev_phy_write 30 0xE00 0;
              ev_enable_irq 7; ev_genphy_suspend 0]) /\
  reg_after (rockchip_fephy_wol_enable (kernel_ok 7) phydev_wol)
    SMI_ADDR_TSTCNTL = Some 0x4C03 /\
  Z.land 0x4C03 TSTMODE_ENABLE = TSTMODE_ENABLE /\
  observe (rockchip_fephy_config_init (kernel_ok 7) phydev_wol)
  = Some (0, [ev_phy_write 25 0x7aa 0;
              ev_phy_write 20 0x0 0; ev_phy_write 20 0x400 0;
              ev_phy_write 20 0x0 0; ev_phy_write 20 0x400 0;
              ev_phy_write 23 0xC 0; ev_phy_write 20 0x4418 0;
              ev_phy_write 20 0x0 0]) /\
  reg_after (rockchip_fephy_config_init (kernel_ok 7) phydev_wol)
    SMI_ADDR_TSTCNTL = Some TSTMODE_DISABLE.
Proof. repeat split; vm_compute; reflexivity. Qed.

(** C3 (not met by the code): on the probed example device with a bus on
    which every write fails with -5, WOL enable and WOL disable return -5
    after their first write, and suspend and resume, which call them, go
    on to the interrupt line and the generic routine and return 0: the bus
    error does not reach the caller.  The initialization sequence on the
    same bus does return -5. *)
Theorem suspend_resume_drop_write_error :
  observe (rockchip_fephy_wol_enable kernel_eio phydev_wol)
  = Some (-5, [ev_phy_write 23 0x4455 (-5)]) /\
  observe (rockchip_fephy_suspend kernel_eio phydev_wol)
  = Some (0, [ev_phy_write 23 0x4455 (-5);
              ev_enable_irq 7; ev_genphy_suspend 0]) /\
  observe (rockchip_fephy_wol_disable kernel_eio phydev_wol)
  = Some (-5, [ev_phy_write 23 0x0 (-5)]) /\
  observe (rockchip_fephy_resume kernel_eio phydev_wol)
  = Some (0, [ev_phy_write 23 0x0 (-5);
              ev_disable_irq 7; ev_genphy_resume 0]) /\
  observe (rockchip_fephy_config_init kernel_eio phydev_wol)
  = Some (-5, [ev_phy_write 25 0x7aa (-5)]).
Proof. repeat split; vm_compute; reflexivity. Qed.

(** ** The register file follows the trace *)

(** A register to which the trace has no successful write keeps its
    value. *)
Lemma replay_untouched i es : forall m,
  (forall e, e ∈ es -> forall v, e <> ev_phy_write i v 0) ->
  replay es m !! i = m !! i.
Proof.
  induction es as [| e es IH]; intros m Hno; [reflexivity |].
  change (replay (e :: es) m) with (replay es (replay_event m e)).
  rewrite IH by (intros e' He'; apply Hno; right; exact He').
  destruct e as [r v rc | | | | | | | | | | |]; try reflexivity.
  simpl. destruct (nonzero rc) eqn:E; [reflexivity |].
  apply nonzero_false in E. subst rc.
  apply lookup_insert_ne. intros ->.
  apply (Hno (ev_phy_write i v 0) ltac:(left) v). reflexivity.
Qed.


Lemma tracked_Return {A} (a : A) : tracked (Return a).
Proof.
  intros s a' s' H. inversion H; subst. exists [].
  rewrite app_nil_r. repeat split.
Qed.

Lemma tracked_Bind {A B} (m : M A) (f : A -> M B) :
  tracked m -> (forall a, tracked (f a)) -> tracked (Bind m f).
Proof.
  intros Hm Hf s b s2 H. unfold Bind in H.
  destruct (m s) as [[a s1] |] eqn:Em; [| discriminate].
  destruct (Hm s a s1 Em) as (es1 & Ht1 & Hr1 & Ha1).
  destruct (Hf a s1 b s2 H) as (es2 & Ht2 & Hr2 & Ha2).
  exists (es1 ++ es2).
  split; [rewrite Ht2, Ht1, app_assoc; reflexivity |].
  split; [rewrite Hr2, Hr1, replay_app; reflexivity | congruence].
Qed.

Lemma tracked_if {A} (b : bool) (m1 m2 : M A) :
  tracked m1 -> tracked m2 -> tracked (if b then m1 else m2).
Proof. destruct b; intros; assumption. Qed.

Lemma tracked_phy_write K r v : tracked (phy_write K r v).
Proof.
  intros s a s' H. unfold phy_write in H. cbv zeta in H.
  inversion H; subst; clear H.
  set (rc := phy_write_rc K (trace s) (u32 r) (u16 v)).
  exists [ev_phy_write (u32 r) (u16 v) rc].
  unfold replay. simpl. destruct (nonzero rc); repeat split.
Qed.

(** A step that adds one event other than a register write, or none. *)
Lemma tracked_log {A} (m : M A) :
  (forall s, exists a e, m s = Some (a, log_event e s) /\
     forall r v rc, e <> ev_phy_write r v rc) ->
  tracked m.
Proof.
  intros Hm s a s' H. destruct (Hm s) as (a0 & e & Hs & Hne).
  rewrite Hs in H. inversion H; subst; clear H.
  exists [e]. split; [reflexivity |]. split; [| reflexivity].
  destruct e; try reflexivity. exfalso. eapply Hne. reflexivity.
Qed.

Lemma tracked_set_priv p : tracked (set_priv p).
Proof.
  intros s a s' H. inversion H; subst. exists [].
  simpl. rewrite app_nil_r. repeat split.
Qed.

Lemma tracked_deref_priv : tracked deref_priv.
Proof.
  intros s a s' H. unfold deref_priv in H.
  destruct (priv s) eqn:Ep; [| discriminate].
  apply (tracked_Return _ _ _ _ H).
Qed.

Lemma tracked_read_dev_addr i : tracked (read_dev_addr i).
Proof.
  intros s a s' H. unfold read_dev_addr in H.
  destruct (attached_dev s) as [ndev |] eqn:Ea; [| discriminate].
  destruct (dev_addr ndev !! i); [| discriminate].
  rewrite <- Ea. apply (tracked_Return _ _ _ _ H).
Qed.

Ltac tracked_service :=
  apply tracked_log; intros ?; eexists _, _;
  split; [reflexivity | intros; discriminate].

Ltac tracked_step :=
  first
    [ apply tracked_Return
    | apply tracked_phy_write
    | apply tracked_set_priv
    | apply tracked_deref_priv
    | apply tracked_read_dev_addr
    | apply tracked_if
    | apply tracked_Bind; [| intros ?]
    | tracked_service ].

Lemma tracked_init_tstmode K : tracked (rockchip_fephy_init_tstmode K).
Proof. unfold rockchip_fephy_init_tstmode. repeat tracked_step. Qed.

Lemma tracked_bank_write K bank reg val :
  tracked (rockchip_fephy_bank_write K bank reg val).
Proof. unfold rockchip_fephy_bank_write. cbv zeta. repeat tracked_step. Qed.

Lemma tracked_config_init K : tracked (rockchip_fephy_config_init K).
Proof.
  unfold rockchip_fephy_config_init, rockchip_fephy_close_tstmode.
  repeat first [apply tracked_init_tstmode | apply tracked_bank_write
               | tracked_step].
Qed.

Lemma tracked_wol_enable K : tracked (rockchip_fephy_wol_enable K).
Proof.
  unfold rockchip_fephy_wol_enable, dev_addr_word.
  repeat first [apply tracked_bank_write | tracked_step].
Qed.

Lemma tracked_wol_disable K : tracked (rockchip_fephy_wol_disable K).
Proof.
  unfold rockchip_fephy_wol_disable.
  repeat first [apply tracked_bank_write | tracked_step].
Qed.

Lemma tracked_suspend K : tracked (rockchip_fephy_suspend K).
Proof.
  unfold rockchip_fephy_suspend.
  repeat first [apply tracked_wol_enable | tracked_step].
Qed.

Lemma tracked_resume K : tracked (rockchip_fephy_resume K).
Proof.
  unfold rockchip_fephy_resume.
  repeat first [apply tracked_wol_disable | tracked_step].
Qed.

Lemma tracked_probe K : tracked (rockchip_fephy_probe K).
Proof. unfold rockchip_fephy_probe. repeat tracked_step. Qed.

Lemma tracked_wol_irq_thread K : tracked (rockchip_fephy_wol_irq_thread K).
Proof.
  unfold rockchip_fephy_wol_irq_thread. repeat tracked_step.
  intros s x s' H. discriminate H.
Qed.

(** ** Probe: the remaining paths *)

(** When the instance state cannot be allocated, probe returns -ENOMEM
    right away: the failed allocation is its only call, the interrupt is
    not looked up, and the device is otherwise as before. *)
Theorem probe_no_memory K s :
  devm_kzalloc_ok K (trace s) = false ->
  rockchip_fephy_probe K s
  = Some (- ENOMEM, log_event (ev_devm_kzalloc false) s).
Proof.
  intros Hmem. unfold rockchip_fephy_probe, Bind, devm_kzalloc.
  rewrite Hmem. reflexivity.
Qed.

Lemma probe_no_memory_witness :
  observe (rockchip_fephy_probe kernel_nomem phydev_fresh)
  = Some (-12, [ev_devm_kzalloc false]).
Proof.
  rewrite (probe_no_memory kernel_nomem phydev_fresh eq_refl). reflexivity.
Defined.

(** With a wake line in the device tree (lookup result [irq > 0]) and a
    successful request, probe returns 0 after requesting the threaded
    handler under the name "rockchip_fephy_wol_irq", disabling the line and
    marking it as a wake source, in this order; the line is left disabled
    once, and the instance records the line and its owner. *)
Theorem probe_with_wake_line K s irq :
  devm_kzalloc_ok K (trace s) = true ->
  of_irq_get_byname_rv K (trace s ++ [ev_devm_kzalloc true]) "wol_irq" = irq ->
  0 < irq ->
  devm_request_threaded_irq_rc K
    (trace s ++ [ev_devm_kzalloc true; ev_of_irq_get_byname "wol_irq" irq])
    irq = 0 ->
  exists s',
    rockchip_fephy_probe K s = Some (0, s') /\
    trace s'
    = trace s
      ++ [ev_devm_kzalloc true; ev_of_irq_get_byname "wol_irq" irq;
          ev_devm_request_threaded_irq irq "rockchip_fephy_wol_irq" 0;
          ev_disable_irq irq; ev_enable_irq_wake irq] /\
    priv s' = Some {| priv_phydev := true; wol_irq := irq |} /\
    irq_disable_depth irq
      (drop (length (trace s)) (trace s')) = 1 /\
    mdio_regs s' = mdio_regs s.
Proof.
  intros Hmem Hirq Hpos Hreq.
  unfold rockchip_fephy_probe, Bind, devm_kzalloc, set_priv,
    of_irq_get_byname.
  rewrite Hmem. cbn [negb trace with_priv log_event]. rewrite Hirq.
  destruct (Z.eqb_spec irq (- EPROBE_DEFER)) as [Heq | _];
    [unfold EPROBE_DEFER in Heq; lia |].
  destruct (Z.ltb_spec 0 irq) as [_ | Hle]; [| lia].
  unfold devm_request_threaded_irq. cbn [trace with_priv log_event].
  rewrite <- app_assoc. cbn [app]. rewrite Hreq.
  cbn [nonzero Z.eqb negb]. unfold disable_irq, enable_irq_wake, Return.
  eexists. split; [reflexivity |].
  assert (Htr : forall t : list event,
            ((((t ++ [ev_devm_kzalloc true])
               ++ [ev_of_irq_get_byname "wol_irq" irq])
              ++ [ev_devm_request_threaded_irq irq "rockchip_fephy_wol_irq" 0])
             ++ [ev_disable_irq irq]) ++ [ev_enable_irq_wake irq]
            = t ++ [ev_devm_kzalloc true; ev_of_irq_get_byname "wol_irq" irq;
                    ev_devm_request_threaded_irq irq
                      "rockchip_fephy_wol_irq" 0;
                    ev_disable_irq irq; ev_enable_irq_wake irq]).
  { intros t. rewrite <- !app_assoc. reflexivity. }
  cbn [trace with_priv log_event priv mdio_regs]. rewrite Htr.
  split; [reflexivity |]. split; [reflexivity |].
  split; [| reflexivity].
  rewrite drop_app_length. cbn [irq_disable_depth irq_delta].
  rewrite Z.eqb_refl. reflexivity.
Qed.

Lemma probe_with_wake_line_witness :
  exists s',
    rockchip_fephy_probe (kernel_ok 7) phydev_fresh = Some (0, s') /\
    trace s'
    = [ev_devm_kzalloc true; ev_of_irq_get_byname "wol_irq" 7;
       ev_devm_request_threaded_irq 7 "rockchip_fephy_wol_irq" 0;
       ev_disable_irq 7; ev_enable_irq_wake 7] /\
    priv s' = Some {| priv_phydev := true; wol_irq := 7 |}.
Proof.
  destruct (probe_with_wake_line (kernel_ok 7) phydev_fresh 7)
    as (s' & Hrun & Htr & Hpriv & _);
    [reflexivity | reflexivity | lia | reflexivity |].
  exists s'. repeat split; assumption.
Defined.

(** When requesting the wake interrupt fails, probe logs the error and
    returns the code of the request; the line is neither disabled nor
    marked as a wake source, and the instance is left with the line number
    but without its owner. *)
Theorem probe_request_irq_failure K s irq rc :
  devm_kzalloc_ok K (trace s) = true ->
  of_irq_get_byname_rv K (trace s ++ [ev_devm_kzalloc true]) "wol_irq" = irq ->
  0 < irq ->
  devm_request_threaded_irq_rc K
    (trace s ++ [ev_devm_kzalloc true; ev_of_irq_get_byname "wol_irq" irq])
    irq = rc ->
  rc <> 0 ->
  exists s',
    rockchip_fephy_probe K s = Some (rc, s') /\
    trace s'
    = trace s
      ++ [ev_devm_kzalloc true; ev_of_irq_get_byname "wol_irq" irq;
          ev_devm_request_threaded_irq irq "rockchip_fephy_wol_irq" rc;
          ev_phydev_err rc] /\
    priv s' = Some {| priv_phydev := false; wol_irq := irq |}.
Proof.
  intros Hmem Hirq Hpos Hreq Hrc.
  unfold rockchip_fephy_probe, Bind, devm_kzalloc, set_priv,
    of_irq_get_byname.
  rewrite Hmem. cbn [negb trace with_priv log_event]. rewrite Hirq.
  destruct (Z.eqb_spec irq (- EPROBE_DEFER)) as [Heq | _];
    [unfold EPROBE_DEFER in Heq; lia |].
  destruct (Z.ltb_spec 0 irq) as [_ | Hle]; [| lia].
  unfold devm_request_threaded_irq. cbn [trace with_priv log_event].
  rewrite <- app_assoc. cbn [app]. rewrite Hreq.
  apply nonzero_true in Hrc. rewrite Hrc. unfold phydev_err, Return.
  eexists. split; [reflexivity |].
  cbn [trace with_priv log_event priv]. rewrite <- !app_assoc.
  split; reflexivity.
Qed.

Lemma probe_request_irq_failure_witness :
  exists s',
    rockchip_fephy_probe kernel_irq_busy phydev_fresh = Some (-16, s') /\
    trace s'
    = [ev_devm_kzalloc true; ev_of_irq_get_byname "wol_irq" 7;
       ev_devm_request_threaded_irq 7 "rockchip_fephy_wol_irq" (-16);
       ev_phydev_err (-16)] /\
    priv s' = Some {| priv_phydev := false; wol_irq := 7 |}.
Proof.
  apply (probe_request_irq_failure kernel_irq_busy phydev_fresh 7 (-16));
    [reflexivity | reflexivity | lia | reflexivity | lia].
Defined.

(** Probe always returns, after at most five calls into the kernel, and
    none of them reads or writes a PHY register: the register file and the
    attached interface are as before. *)
Theorem probe_no_register_access K s :
  exists rc s' es,
    rockchip_fephy_probe K s = Some (rc, s') /\
    trace s' = trace s ++ es /\
    (length es <= 5)%nat /\
    (forall e, e ∈ es -> is_reg_access e = false) /\
    mdio_regs s' = mdio_regs s /\
    attached_dev s' = attached_dev s.
Proof.
  unfold rockchip_fephy_probe, Bind, devm_kzalloc, set_priv,
    of_irq_get_byname, devm_request_threaded_irq, phydev_err, disable_irq,
    enable_irq_wake, Return.
  destruct (devm_kzalloc_ok K (trace s)); cbn [negb].
  2: { eexists _, _, [_]. split; [reflexivity |]. split; [reflexivity |].
       split; [simpl; lia |]. split; [| split; reflexivity].
       intros e He. apply list_elem_of_singleton in He as ->. reflexivity. }
  cbn [trace with_priv log_event].
  destruct (_ =? - EPROBE_DEFER).
  { eexists _, _, [_; _].
    split; [reflexivity |].
    split; [cbn [trace with_priv log_event]; rewrite <- !app_assoc;
            reflexivity |].
    split; [simpl; lia |]. split; [| split; reflexivity].
    intros e He.
    repeat (apply elem_of_cons in He as [-> | He]; [reflexivity |]).
    inversion He. }
  destruct (0 <? _).
  2: { eexists _, _, [_; _].
       split; [reflexivity |].
       split; [cbn [trace with_priv log_event]; rewrite <- !app_assoc;
               reflexivity |].
       split; [simpl; lia |]. split; [| split; reflexivity].
       intros e He.
       repeat (apply elem_of_cons in He as [-> | He]; [reflexivity |]).
       inversion He. }
  destruct (nonzero _).
  - eexists _, _, [_; _; _; _].
    split; [reflexivity |].
    split; [cbn [trace with_priv log_event]; rewrite <- !app_assoc;
            reflexivity |].
    split; [simpl; lia |]. split; [| split; reflexivity].
    intros e He.
    repeat (apply elem_of_cons in He as [-> | He]; [reflexivity |]).
    inversion He.
  - eexists _, _, [_; _; _; _; _].
    split; [reflexivity |].
    split; [cbn [trace with_priv log_event]; rewrite <- !app_assoc;
            reflexivity |].
    split; [simpl; lia |]. split; [| split; reflexivity].
    intros e He.
    repeat (apply elem_of_cons in He as [-> | He]; [reflexivity |]).
    inversion He.
Qed.

(** ** Suspend and resume: the interrupt line and missing pointers *)

Lemma irq_disable_depth_app irq es1 es2 :
  irq_disable_depth irq (es1 ++ es2)
  = irq_disable_depth irq es1 + irq_disable_depth irq es2.
Proof. induction es1 as [| e es1 IH]; simpl; [reflexivity | lia]. Qed.

(** Register writes do not move the interrupt line. *)
Lemma irq_disable_depth_script irq ws es rc :
  script_run ws es rc -> irq_disable_depth irq es = 0.
Proof. induction 1; simpl; lia. Qed.

(** Suspend with a wake line, step by step. *)
Lemma suspend_run K s p ndev b0 b1 b2 b3 b4 b5 :
  priv s = Some p -> 0 < wol_irq p ->
  attached_dev s = Some ndev ->
  dev_addr ndev = [b0; b1; b2; b3; b4; b5] ->
  exists rc_wol s1 es,
    trace s1 = trace s ++ es /\
    script_run
      (wol_enable_script (byte_val b0) (byte_val b1) (byte_val b2)
         (byte_val b3) (byte_val b4) (byte_val b5)) es rc_wol /\
    attached_dev s1 = attached_dev s /\
    priv s1 = priv s /\
    rockchip_fephy_suspend K s
    = genphy_suspend K (log_event (ev_enable_irq (wol_irq p)) s1).
Proof.
  intros Hpriv Hirq Had Hdev.
  destruct (wol_enable_performs K s ndev b0 b1 b2 b3 b4 b5 Had Hdev)
    as (rc_wol & s1 & es & Hrun & Htr & Hsr & Had1 & Hpr1 & _).
  exists rc_wol, s1, es.
  split; [exact Htr |]. split; [exact Hsr |].
  split; [exact Had1 |]. split; [exact Hpr1 |].
  unfold rockchip_fephy_suspend, Bind, deref_priv. rewrite Hpriv.
  unfold Return at 1. apply Z.ltb_lt in Hirq. rewrite Hirq, Hrun.
  reflexivity.
Qed.

(** Resume with a wake line, step by step. *)
Lemma resume_run K s p :
  priv s = Some p -> 0 < wol_irq p ->
  exists rc_wol s1 es,
    trace s1 = trace s ++ es /\
    script_run wol_disable_script es rc_wol /\
    attached_dev s1 = attached_dev s /\
    priv s1 = priv s /\
    rockchip_fephy_resume K s
    = genphy_resume K (log_event (ev_disable_irq (wol_irq p)) s1).
Proof.
  intros Hpriv Hirq.
  destruct (wol_disable_performs K s)
    as (rc_wol & s1 & es & Hrun & Htr & Hsr & Had1 & Hpr1 & _).
  exists rc_wol, s1, es.
  split; [exact Htr |]. split; [exact Hsr |].
  split; [exact Had1 |]. split; [exact Hpr1 |].
  unfold rockchip_fephy_resume, Bind, deref_priv. rewrite Hpriv.
  unfold Return at 1. apply Z.ltb_lt in Hirq. rewrite Hirq, Hrun.
  reflexivity.
Qed.

Lemma count_events_app f es1 es2 :
  count_events f (es1 ++ es2)
  = (count_events f es1 + count_events f es2)%nat.
Proof. induction es1 as [| e es1 IH]; simpl; [reflexivity | lia]. Qed.

(** A run of a script is made of register writes only. *)
Lemma script_run_only_writes ws es rc :
  script_run ws es rc ->
  (forall e, e ∈ es -> is_phy_write e = true) /\
  count_events is_enable_irq es = 0%nat /\
  count_events is_disable_irq es = 0%nat.
Proof.
  induction 1 as [| r v ws es rc H [IH1 [IH2 IH3]] | r v ws rc Hrc].
  - repeat split. intros e He. inversion He.
  - repeat split; [| exact IH2 | exact IH3].
    intros e He. apply elem_of_cons in He as [-> | He];
      [reflexivity | exact (IH1 e He)].
  - repeat split. intros e He.
    apply list_elem_of_singleton in He as ->. reflexivity.
Qed.

(** On a device with a bound wake line, whatever the bus and the generic
    routines answer: what suspend does is register writes, then exactly one
    [enable_irq], on the wake line, then generic suspend, and no
    [disable_irq]; what the resume that follows does is register writes,
    then exactly one [disable_irq], on the wake line, then generic resume,
    and no [enable_irq].  A suspend/resume cycle leaves the line's disable
    depth, the instance state and the attached interface as they were. *)
Theorem suspend_resume_irq_balance K s p ndev b0 b1 b2 b3 b4 b5 :
  priv s = Some p -> 0 < wol_irq p ->
  attached_dev s = Some ndev ->
  dev_addr ndev = [b0; b1; b2; b3; b4; b5] ->
  exists rc1 s1 es1 rc2 s2 es2,
    rockchip_fephy_suspend K s = Some (rc1, s1) /\
    trace s1 = trace s ++ es1 /\
    rockchip_fephy_resume K s1 = Some (rc2, s2) /\
    trace s2 = trace s1 ++ es2 /\
    irq_disable_depth (wol_irq p) es1 = -1 /\
    irq_disable_depth (wol_irq p) es2 = 1 /\
    irq_disable_depth (wol_irq p) (es1 ++ es2) = 0 /\
    priv s2 = priv s /\
    attached_dev s2 = attached_dev s /\
    (exists ew1,
       es1 = ew1 ++ [ev_enable_irq (wol_irq p); ev_genphy_suspend rc1] /\
       forall e, e ∈ ew1 -> is_phy_write e = true) /\
    (exists ew2,
       es2 = ew2 ++ [ev_disable_irq (wol_irq p); ev_genphy_resume rc2] /\
       forall e, e ∈ ew2 -> is_phy_write e = true) /\
    count_events is_enable_irq es1 = 1%nat /\
    count_events is_disable_irq es1 = 0%nat /\
    count_events is_enable_irq es2 = 0%nat /\
    count_events is_disable_irq es2 = 1%nat.
Proof.
  intros Hpriv Hirq Had Hdev.
  destruct (suspend_run K s p ndev b0 b1 b2 b3 b4 b5 Hpriv Hirq Had Hdev)
    as (rcw1 & t1 & ew1 & Htr1 & Hsr1 & Had1 & Hpr1 & Hsus).
  set (rc1 := genphy_suspend_rc K
                (trace (log_event (ev_enable_irq (wol_irq p)) t1))).
  set (s1 := log_event (ev_genphy_suspend rc1)
               (log_event (ev_enable_irq (wol_irq p)) t1)).
  assert (Hpriv1 : priv s1 = Some p) by (simpl; congruence).
  destruct (resume_run K s1 p Hpriv1 Hirq)
    as (rcw2 & t2 & ew2 & Htr2 & Hsr2 & Had2 & Hpr2 & Hres).
  set (rc2 := genphy_resume_rc K
                (trace (log_event (ev_disable_irq (wol_irq p)) t2))).
  set (s2 := log_event (ev_genphy_resume rc2)
               (log_event (ev_disable_irq (wol_irq p)) t2)).
  destruct (script_run_only_writes _ _ _ Hsr1) as (Hw1 & He1 & Hd1').
  destruct (script_run_only_writes _ _ _ Hsr2) as (Hw2 & He2 & Hd2').
  exists rc1, s1, (ew1 ++ [ev_enable_irq (wol_irq p); ev_genphy_suspend rc1]),
    rc2, s2, (ew2 ++ [ev_disable_irq (wol_irq p); ev_genphy_resume rc2]).
  assert (Hd1 : irq_disable_depth (wol_irq p)
                  (ew1 ++ [ev_enable_irq (wol_irq p); ev_genphy_suspend rc1])
                = -1).
  { rewrite irq_disable_depth_app, (irq_disable_depth_script _ _ _ _ Hsr1).
    simpl. rewrite Z.eqb_refl. reflexivity. }
  assert (Hd2 : irq_disable_depth (wol_irq p)
                  (ew2 ++ [ev_disable_irq (wol_irq p); ev_genphy_resume rc2])
                = 1).
  { rewrite irq_disable_depth_app, (irq_disable_depth_script _ _ _ _ Hsr2).
    simpl. rewrite Z.eqb_refl. reflexivity. }
  split; [rewrite Hsus; reflexivity |].
  split; [unfold s1; cbn [trace log_event]; rewrite Htr1, <- !app_assoc;
          reflexivity |].
  split; [rewrite Hres; reflexivity |].
  split; [unfold s2; cbn [trace log_event]; rewrite Htr2, <- !app_assoc;
          reflexivity |].
  split; [exact Hd1 |]. split; [exact Hd2 |].
  split; [rewrite irq_disable_depth_app, Hd1, Hd2; reflexivity |].
  split; [unfold s2; simpl; rewrite Hpr2; unfold s1; simpl; exact Hpr1 |].
  split; [unfold s2; simpl; rewrite Had2; unfold s1; simpl; exact Had1 |].
  split; [exists ew1; split; [reflexivity | exact Hw1] |].
  split; [exists ew2; split; [reflexivity | exact Hw2] |].
  rewrite !count_events_app, He1, Hd1', He2, Hd2'.
  repeat split; reflexivity.
Qed.

Lemma suspend_resume_irq_balance_witness :
  exists rc1 s1 es1 rc2 s2 es2,
    rockchip_fephy_suspend (kernel_eio) phydev_wol = Some (rc1, s1) /\
    trace s1 = trace phydev_wol ++ es1 /\
    rockchip_fephy_resume (kernel_eio) s1 = Some (rc2, s2) /\
    trace s2 = trace s1 ++ es2 /\
    irq_disable_depth 7 (es1 ++ es2) = 0 /\
    priv s2 = priv phydev_wol /\
    count_events is_enable_irq es1 = 1%nat /\
    count_events is_disable_irq es2 = 1%nat.
Proof.
  destruct (suspend_resume_irq_balance kernel_eio phydev_wol
              {| priv_phydev := true; wol_irq := 7 |} ndev_example
              x00 x11 x22 x33 x44 x55 eq_refl ltac:(simpl; lia)
              eq_refl eq_refl)%byte
    as (rc1 & s1 & es1 & rc2 & s2 & es2
        & H1 & H2 & H3 & H4 & _ & _ & H5 & H6 & _ & _ & _ & H7 & _ & _ & H8).
  exists rc1, s1, es1, rc2, s2, es2. repeat split; assumption.
Defined.



(** ** Which registers the sequences touch *)

(** What code that runs a script appended to the trace is the run of the
    script, and the register file is its replay. *)
Lemma performs_tracked K (m : M Z) ws s rc s' :
  tracked m -> performs K m ws s -> m s = Some (rc, s') ->
  exists es,
    trace s' = trace s ++ es /\
    script_run ws es rc /\
    mdio_regs s' = replay es (mdio_regs s).
Proof.
  intros Ht (rc0 & s0 & es & Hrun & Htr & Hsr & _) Hm.
  rewrite Hm in Hrun. inversion Hrun; subst rc0 s0; clear Hrun.
  destruct (Ht s rc s' Hm) as (es' & Htr' & Hregs & _).
  rewrite Htr in Htr'. apply app_inv_head in Htr'. subst es'.
  exists es. repeat split; assumption.
Qed.

(** A register the script does not name keeps its value, whether the run
    succeeds or not. *)
Lemma script_frame ws es rc i m :
  script_run ws es rc -> (forall v, (i, v) ∉ ws) ->
  replay es m !! i = m !! i.
Proof.
  intros Hsr Hno. apply replay_untouched. intros e He v ->.
  destruct (script_run_events _ _ _ Hsr _ He) as (r & v' & rc' & Heq & Hin).
  inversion Heq; subst. exact (Hno _ Hin).
Qed.

(** The register file after a failed run: the writes before the failing
    one. *)
Lemma replay_failed_run ws k r v rc m :
  rc <> 0 ->
  replay (ok_events (take k ws) ++ [ev_phy_write r v rc]) m
  = write_regs (take k ws) m.
Proof.
  intros Hrc. rewrite replay_app, replay_ok_events.
  apply nonzero_true in Hrc. unfold replay. simpl. rewrite Hrc. reflexivity.
Qed.

(** The initialization sequence writes no register other than 20, 23 and
    25, however it ends; when it succeeds, the LED control register holds
    0x7aa, the write-data register 0xC, and the test-mode control register
    is back at 0x0 (normal mode). *)
Theorem config_init_registers K s :
  exists rc s',
    rockchip_fephy_config_init K s = Some (rc, s') /\
    (forall i, i <> 20 -> i <> 23 -> i <> 25 ->
       mdio_regs s' !! i = mdio_regs s !! i) /\
    (rc = 0 ->
     mdio_regs s' !! 25 = Some 0x7aa /\
     mdio_regs s' !! 23 = Some 0xC /\
     mdio_regs s' !! 20 = Some TSTMODE_DISABLE).
Proof.
  destruct (config_init_performs K s) as (rc & s' & es0 & Hrun & Hrest).
  exists rc, s'. split; [exact Hrun |].
  destruct (performs_tracked K _ _ s rc s' (tracked_config_init K)
              (config_init_performs K s) Hrun)
    as (es & Htr & Hsr & Hregs).
  split.
  - intros i H20 H23 H25. rewrite Hregs.
    apply (script_frame _ _ _ _ _ Hsr). intros v Hin.
    unfold config_init_script, banked_write, MII_LED_CTRL,
      SMI_ADDR_TSTCNTL in Hin. simpl in Hin.
    repeat (apply elem_of_cons in Hin as [Hin | Hin]; [congruence |]).
    inversion Hin.
  - intros ->. rewrite Hregs, (script_run_success _ _ Hsr), replay_ok_events.
    rewrite !write_regs_lookup. repeat split; reflexivity.
Qed.

(** No rollback: when the initialization sequence fails in its banked
    write or in the exit write (at least six writes were attempted), the
    test-mode control register is left with the test-mode enable bit set
    (0x400 after the entry pulses, 0x4418 after the control word), and the
    error is returned without a further write. *)
Theorem config_init_failure_in_tstmode K s rc s' es :
  rockchip_fephy_config_init K s = Some (rc, s') ->
  trace s' = trace s ++ es ->
  rc <> 0 ->
  (6 <= length es)%nat ->
  exists cw r v,
    mdio_regs s' !! SMI_ADDR_TSTCNTL = Some cw /\
    (cw = 0x400 \/ cw = 0x4418) /\
    Z.land cw TSTMODE_ENABLE = TSTMODE_ENABLE /\
    last es = Some (ev_phy_write r v rc).
Proof.
  intros Hrun Htr Hrc Hlen.
  destruct (performs_tracked K _ _ s rc s' (tracked_config_init K)
              (config_init_performs K s) Hrun)
    as (es' & Htr' & Hsr & Hregs).
  rewrite Htr in Htr'. apply app_inv_head in Htr'. subst es'.
  destruct (script_run_failure _ _ _ Hsr Hrc) as (k & r & v & Hk & Hes).
  subst es. rewrite Hregs, replay_failed_run by exact Hrc.
  rewrite write_regs_lookup.
  rewrite length_app in Hlen. unfold ok_events in Hlen.
  rewrite length_map, length_take in Hlen. simpl in Hlen.
  do 5 (destruct k as [| k]; [simpl in Hlen; lia |]).
  do 3 (destruct k as [| k];
        [eexists _, r, v; split; [reflexivity |];
         split; [first [left; reflexivity | right; reflexivity] |];
         split; [reflexivity | apply last_snoc] |]).
  discriminate Hk.
Qed.

Lemma config_init_failure_in_tstmode_witness :
  exists rc s' es cw,
    rockchip_fephy_config_init (kernel_fail_at 5) phydev_fresh
    = Some (rc, s') /\
    trace s' = trace phydev_fresh ++ es /\
    rc = -5 /\ length es = 6%nat /\
    mdio_regs s' !! SMI_ADDR_TSTCNTL = Some cw /\
    Z.land cw TSTMODE_ENABLE = TSTMODE_ENABLE.
Proof.
  destruct (rockchip_fephy_config_init (kernel_fail_at 5) phydev_fresh)
    as [[rc s'] |] eqn:Hrun; [| vm_compute in Hrun; discriminate Hrun].
  assert (Hobs : rc = -5 /\
            trace s' = [ev_phy_write 25 0x7aa 0; ev_phy_write 20 0x0 0;
                        ev_phy_write 20 0x400 0; ev_phy_write 20 0x0 0;
                        ev_phy_write 20 0x400 0; ev_phy_write 23 0xC (-5)]).
  { vm_compute in Hrun. inversion Hrun; subst. split; reflexivity. }
  destruct Hobs as [-> Htr].
  destruct (config_init_failure_in_tstmode (kernel_fail_at 5) phydev_fresh
              (-5) s' (trace s') Hrun eq_refl ltac:(lia)
              ltac:(rewrite Htr; simpl; lia))
    as (cw & r & v & Hcw & _ & Hbit & _).
  exists (-5), s', (trace s'), cw.
  repeat split; try assumption. rewrite Htr. reflexivity.
Defined.

(** ** Control words *)

Lemma land_bit10 v : Z.testbit v 10 = true -> Z.land v 0x400 = 0x400.
Proof.
  intros Hv. apply Z.bits_inj'. intros n Hn.
  rewrite Z.land_spec. change 0x400 with (2 ^ 10).
  rewrite Z.pow2_bits_eqb by lia.
  destruct (Z.eqb_spec 10 n) as [<- | _]; [rewrite Hv; reflexivity |].
  apply andb_false_r.
Qed.

(** Bits 10 and 14, the bits of the write-command flag, are set in every
    control word, also after the cut to 16 bits. *)
Lemma control_word_flag_bits bank reg :
  Z.testbit (u16 (control_word bank reg)) 10 = true /\
  Z.testbit (u16 (control_word bank reg)) 14 = true.
Proof.
  unfold u16, control_word.
  rewrite !Z.mod_pow2_bits_low by lia. rewrite !Z.lor_spec.
  split; reflexivity.
Qed.

(** A banked write that succeeds leaves its value in the write-data
    register and, in the test-mode control register, a word with the
    write-command bit 14 and the test-mode enable bit 10 (0x400) set, for
    any bank, offset and value: the banked write itself keeps test mode
    switched on. *)
Theorem bank_write_leaves_tstmode_bit K s bank reg val s' :
  rockchip_fephy_bank_write K bank reg val s = Some (0, s') ->
  exists cw,
    mdio_regs s' !! SMI_ADDR_TSTCNTL = Some cw /\
    Z.testbit cw 14 = true /\
    Z.land cw TSTMODE_ENABLE = TSTMODE_ENABLE /\
    mdio_regs s' !! SMI_ADDR_TSTWRITE = Some (u16 val) /\
    forall i, i <> 20 -> i <> 23 -> mdio_regs s' !! i = mdio_regs s !! i.
Proof.
  intros Hrun.
  destruct (bank_write_performs K bank reg val s)
    as (rc & s1 & es & Hrun1 & _ & _ & _ & _ & Hregs & _).
  rewrite Hrun in Hrun1. inversion Hrun1; subst rc s1; clear Hrun1.
  specialize (Hregs eq_refl).
  destruct (control_word_flag_bits (u8 bank) (u32 reg)) as [H10 H14].
  exists (u16 (control_word (u8 bank) (u32 reg))).
  rewrite Hregs, !write_regs_lookup.
  split; [reflexivity |]. split; [exact H14 |].
  split; [apply land_bit10; exact H10 |]. split; [reflexivity |].
  intros i H20 H23. rewrite write_regs_lookup. cbn [last_write].
  destruct (Z.eqb_spec 23 i); [congruence |].
  destruct (Z.eqb_spec 20 i); [congruence | reflexivity].
Qed.

Lemma bank_write_leaves_tstmode_bit_witness :
  exists s' cw,
    rockchip_fephy_bank_write (kernel_ok 7) BANK_DSP0 0x18 0xc phydev_fresh
    = Some (0, s') /\
    mdio_regs s' !! SMI_ADDR_TSTCNTL = Some cw /\
    Z.land cw TSTMODE_ENABLE = TSTMODE_ENABLE.
Proof.
  destruct (rockchip_fephy_bank_write (kernel_ok 7) BANK_DSP0 0x18 0xc
              phydev_fresh) as [[rc s'] |] eqn:Hrun;
    [| vm_compute in Hrun; discriminate Hrun].
  assert (Hrc : rc = 0) by (vm_compute in Hrun; inversion Hrun; reflexivity).
  subst rc.
  destruct (bank_write_leaves_tstmode_bit (kernel_ok 7) phydev_fresh
              BANK_DSP0 0x18 0xc s' Hrun) as (cw & Hcw & _ & Hbit & _).
  exists s', cw. repeat split; assumption.
Defined.

(** The fields of a write control word, read back. *)
Lemma tstcntl_write_fields b r :
  0 <= b < 8 -> 0 <= r < 2 ^ 10 ->
  Z.land (TSTCNTL_WRITE b r) (Z.ones 10) = r /\
  Z.land (Z.shiftr (TSTCNTL_WRITE b r) 11) (Z.ones 3) = b.
Proof.
  intros Hb Hr. unfold TSTCNTL_WRITE, TSTCNTL_BANK_SEL, TSTCNTL_WRITE_ADDR.
  rewrite Z.shiftl_0_r. split.
  - rewrite !Z.land_lor_distr_l.
    change (Z.land TSTCNTL_WR (Z.ones 10)) with 0.
    rewrite !Z.land_ones by lia. rewrite Z.shiftl_mul_pow2 by lia.
    replace (b * 2 ^ 11) with (b * 2 * 2 ^ 10) by lia.
    rewrite Z.mod_mul by lia. rewrite Z.mod_small by exact Hr.
    reflexivity.
  - rewrite !Z.shiftr_lor.
    change (Z.shiftr TSTCNTL_WR 11) with 8.
    rewrite Z.shiftr_shiftl_l by lia. change (11 - 11) with 0.
    rewrite Z.shiftl_0_r.
    rewrite (Z.shiftr_div_pow2 r) by lia.
    rewrite (Z.div_small r) by lia.
    rewrite Z.lor_0_r, Z.land_lor_distr_l.
    change (Z.land 8 (Z.ones 3)) with 0.
    rewrite Z.land_ones by lia. rewrite Z.mod_small by lia. reflexivity.
Qed.

(** Banks 0..7 and offsets below 2^10 (the bits under the flag bit 10) get
    control words of their own: the word that reaches the 16-bit control
    register determines the bank and the offset. *)
Theorem tstcntl_write_injective b r b' r' :
  0 <= b < 8 -> 0 <= r < 2 ^ 10 -> 0 <= b' < 8 -> 0 <= r' < 2 ^ 10 ->
  u16 (TSTCNTL_WRITE b r) = u16 (TSTCNTL_WRITE b' r') ->
  b = b' /\ r = r'.
Proof.
  intros Hb Hr Hb' Hr' Heq.
  rewrite !control_word_macro in Heq.
  rewrite !control_word_u16 in Heq by lia.
  destruct (tstcntl_write_fields b r Hb Hr) as [Hr1 Hb1].
  destruct (tstcntl_write_fields b' r' Hb' Hr') as [Hr2 Hb2].
  rewrite !control_word_macro in Hr1, Hb1, Hr2, Hb2.
  rewrite Heq in Hr1, Hb1. split; congruence.
Qed.

Lemma tstcntl_write_injective_witness :
  u16 (TSTCNTL_WRITE BANK_WOL 0x3) = 0x4C03 /\
  BANK_WOL = BANK_WOL /\ 0x3 = 0x3.
Proof.
  split; [reflexivity |].
  apply (tstcntl_write_injective BANK_WOL 0x3 BANK_WOL 0x3);
    [unfold BANK_WOL; lia | lia | unfold BANK_WOL; lia | lia | reflexivity].
Defined.

(** ** Wake-on-LAN: the interrupt mask comes last *)

(** When the last entry of a script is the only one for its register, an
    attempt on that register means every earlier write went through, and
    the attempt decides the result. *)
Lemma script_run_last_entry pre r v es rc :
  script_run (pre ++ [(r, v)]) es rc ->
  (forall v', (r, v') ∉ pre) ->
  forall v' rc', ev_phy_write r v' rc' ∈ es ->
    v' = v /\ rc' = rc /\ es = ok_events pre ++ [ev_phy_write r v rc].
Proof.
  revert es. induction pre as [| [r0 v0] pre IH]; intros es Hsr Hno v' rc' Hin.
  - simpl in Hsr.
    inversion Hsr as [| r1 v1 ws1 es1 rc1 Hsr1 | r1 v1 ws1 rc1 Hne]; subst.
    + inversion Hsr1; subst.
      apply list_elem_of_singleton in Hin. inversion Hin; subst.
      repeat split.
    + apply list_elem_of_singleton in Hin. inversion Hin; subst.
      repeat split.
  - simpl in Hsr.
    assert (Hr0 : r0 <> r).
    { intros ->. apply (Hno v0). left. }
    assert (Hno' : forall v'', (r, v'') ∉ pre).
    { intros v'' Hin'. apply (Hno v''). right. exact Hin'. }
    inversion Hsr as [| r1 v1 ws1 es1 rc1 Hsr1 | r1 v1 ws1 rc1 Hne]; subst.
    + apply elem_of_cons in Hin as [Heq | Hin]; [congruence |].
      destruct (IH es1 Hsr1 Hno' v' rc' Hin) as (-> & -> & ->).
      repeat split.
    + apply list_elem_of_singleton in Hin. congruence.
Qed.

(** WOL enable unmasks the wake interrupt only after the address and the
    enable mask are programmed: a write to the interrupt-mask register is
    attempted only when all eight writes before it succeeded, its value is
    0xE00, and the result of the call is the result of that write; the call
    succeeds exactly when that write does. *)
Theorem wol_enable_unmasks_last K s ndev b0 b1 b2 b3 b4 b5 :
  attached_dev s = Some ndev ->
  dev_addr ndev = [b0; b1; b2; b3; b4; b5] ->
  exists rc s' es,
    rockchip_fephy_wol_enable K s = Some (rc, s') /\
    trace s' = trace s ++ es /\
    (forall v rc', ev_phy_write MII_INT_MASK v rc' ∈ es ->
       v = 0xE00 /\ rc' = rc /\ length es = 9%nat /\
       forall k e, (k < 8)%nat -> es !! k = Some e ->
         exists r w, e = ev_phy_write r w 0 /\ r <> MII_INT_MASK) /\
    (rc = 0 <-> ev_phy_write MII_INT_MASK 0xE00 0 ∈ es).
Proof.
  intros Had Hdev.
  destruct (wol_enable_performs K s ndev b0 b1 b2 b3 b4 b5 Had Hdev)
    as (rc & s' & es & Hrun & Htr & Hsr & _).
  exists rc, s', es. split; [exact Hrun |]. split; [exact Htr |].
  set (pre := banked_write BANK_WOL 0
                (Z.lor (Z.shiftl (byte_val b4) 8) (byte_val b5))
              ++ banked_write BANK_WOL 1
                   (Z.lor (Z.shiftl (byte_val b2) 8) (byte_val b3))
              ++ banked_write BANK_WOL 2
                   (Z.lor (Z.shiftl (byte_val b0) 8) (byte_val b1))
              ++ banked_write BANK_WOL 3 0xF).
  assert (Hws : wol_enable_script (byte_val b0) (byte_val b1) (byte_val b2)
                  (byte_val b3) (byte_val b4) (byte_val b5)
                = pre ++ [(30, 0xE00)]) by reflexivity.
  rewrite Hws in Hsr.
  assert (Hno : forall v', (30, v') ∉ pre).
  { intros v' Hin. unfold pre, banked_write in Hin. simpl in Hin.
    repeat (apply elem_of_cons in Hin as [Hin | Hin]; [congruence |]).
    inversion Hin. }
  split.
  - intros v rc' Hin.
    destruct (script_run_last_entry pre 30 0xE00 es rc Hsr Hno v rc' Hin)
      as (-> & -> & ->).
    split; [reflexivity |]. split; [reflexivity |]. split; [reflexivity |].
    intros k e Hk He. unfold pre, banked_write in He. simpl in He.
    do 8 (destruct k as [| k];
          [inversion He; subst; eexists _, _; split;
           [reflexivity | unfold MII_INT_MASK; lia] |]).
    lia.
  - split.
    + intros ->. rewrite (script_run_success _ _ Hsr).
      unfold ok_events. rewrite map_app. apply elem_of_app. right. left.
    + intros Hin.
      destruct (script_run_last_entry pre 30 0xE00 es rc Hsr Hno _ _ Hin)
        as (_ & Hrc & _).
      symmetry. exact Hrc.
Qed.

Lemma wol_enable_unmasks_last_witness :
  exists rc s' es,
    rockchip_fephy_wol_enable (kernel_fail_at 8) phydev_wol = Some (rc, s') /\
    trace s' = trace phydev_wol ++ es /\
    (rc = 0 <-> ev_phy_write MII_INT_MASK 0xE00 0 ∈ es).
Proof.
  destruct (wol_enable_unmasks_last (kernel_fail_at 8) phydev_wol
              ndev_example x00 x11 x22 x33 x44 x55 eq_refl eq_refl)%byte
    as (rc & s' & es & Hrun & Htr & _ & Hiff).
  exists rc, s', es. repeat split; try assumption; apply Hiff.
Defined.

(** WOL disable masks the wake interrupt last: the interrupt-mask register
    is written only after the banked write of the enable mask succeeded,
    the call succeeds exactly when that write does, and a call that fails
    leaves the interrupt-mask register as it was. *)
Theorem wol_disable_masks_last K s :
  exists rc s' es,
    rockchip_fephy_wol_disable K s = Some (rc, s') /\
    trace s' = trace s ++ es /\
    (forall v rc', ev_phy_write MII_INT_MASK v rc' ∈ es ->
       v = 0x0 /\ rc' = rc /\
       es = [ev_phy_write 23 0x0 0; ev_phy_write 20 0x4C03 0;
             ev_phy_write 30 0x0 rc]) /\
    (rc = 0 <-> ev_phy_write MII_INT_MASK 0x0 0 ∈ es) /\
    (rc <> 0 -> mdio_regs s' !! MII_INT_MASK = mdio_regs s !! MII_INT_MASK) /\
    (forall i, i <> 20 -> i <> 23 -> i <> 30 ->
       mdio_regs s' !! i = mdio_regs s !! i).
Proof.
  destruct (wol_disable_performs K s) as (rc & s' & es0 & Hrun & _).
  destruct (performs_tracked K _ _ s rc s' (tracked_wol_disable K)
              (wol_disable_performs K s) Hrun)
    as (es & Htr & Hsr & Hregs).
  exists rc, s', es. split; [exact Hrun |]. split; [exact Htr |].
  assert (Hws : wol_disable_script
                = banked_write BANK_WOL 0x3 0x0 ++ [(30, 0x0)])
    by reflexivity.
  assert (Hno : forall v', (30, v') ∉ banked_write BANK_WOL 0x3 0x0).
  { intros v' Hin. unfold banked_write in Hin.
    repeat (apply elem_of_cons in Hin as [Hin | Hin]; [congruence |]).
    inversion Hin. }
  pose proof Hsr as Hsr'. rewrite Hws in Hsr'.
  split.
  { intros v rc' Hin.
    destruct (script_run_last_entry _ 30 0x0 es rc Hsr' Hno v rc' Hin)
      as (-> & -> & ->).
    repeat split. }
  split.
  { split.
    - intros ->. rewrite (script_run_success _ _ Hsr). right. right. left.
    - intros Hin.
      destruct (script_run_last_entry _ 30 0x0 es rc Hsr' Hno _ _ Hin)
        as (_ & Hrc & _).
      symmetry. exact Hrc. }
  split.
  { intros Hrc. rewrite Hregs. apply replay_untouched.
    intros e He v ->.
    destruct (script_run_last_entry _ 30 0x0 es rc Hsr' Hno _ _ He)
      as (_ & Hrc' & _).
    congruence. }
  intros i H20 H23 H30. rewrite Hregs.
  apply (script_frame _ _ _ _ _ Hsr). intros v Hin.
  unfold wol_disable_script, banked_write in Hin. simpl in Hin.
  repeat (apply elem_of_cons in Hin as [Hin | Hin]; [congruence |]).
  inversion Hin.
Qed.

(** WOL enable writes no register other than 20, 23 and 30, however it
    ends and whatever the address; when it succeeds the write-data register
    holds the enable mask 0xF, the test-mode control register the control
    word 0x4C03 of (WOL, 3), and the interrupt-mask register 0xE00; when it
    fails the interrupt-mask register is as it was. *)
Theorem wol_enable_registers K s ndev b0 b1 b2 b3 b4 b5 :
  attached_dev s = Some ndev ->
  dev_addr ndev = [b0; b1; b2; b3; b4; b5] ->
  exists rc s',
    rockchip_fephy_wol_enable K s = Some (rc, s') /\
    (forall i, i <> 20 -> i <> 23 -> i <> 30 ->
       mdio_regs s' !! i = mdio_regs s !! i) /\
    (rc = 0 ->
     mdio_regs s' !! SMI_ADDR_TSTWRITE = Some 0xF /\
     mdio_regs s' !! SMI_ADDR_TSTCNTL = Some 0x4C03 /\
     mdio_regs s' !! MII_INT_MASK = Some 0xE00) /\
    (rc <> 0 -> mdio_regs s' !! MII_INT_MASK = mdio_regs s !! MII_INT_MASK).
Proof.
  intros Had Hdev.
  pose proof (wol_enable_performs K s ndev b0 b1 b2 b3 b4 b5 Had Hdev)
    as Hperf.
  destruct Hperf as (rc & s' & es0 & Hrun & Hrest).
  destruct (performs_tracked K _ _ s rc s' (tracked_wol_enable K)
              (wol_enable_performs K s ndev b0 b1 b2 b3 b4 b5 Had Hdev) Hrun)
    as (es & Htr & Hsr & Hregs).
  exists rc, s'. split; [exact Hrun |].
  split.
  { intros i H20 H23 H30. rewrite Hregs.
    apply (script_frame _ _ _ _ _ Hsr). intros v Hin.
    unfold wol_enable_script, banked_write in Hin. simpl in Hin.
    repeat (apply elem_of_cons in Hin as [Hin | Hin]; [congruence |]).
    inversion Hin. }
  split.
  { intros ->. rewrite Hregs, (script_run_success _ _ Hsr), replay_ok_events.
    rewrite !write_regs_lookup. repeat split; reflexivity. }
  intros Hrc. rewrite Hregs. apply replay_untouched.
  intros e He v ->.
  set (pre := banked_write BANK_WOL 0
                (Z.lor (Z.shiftl (byte_val b4) 8) (byte_val b5))
              ++ banked_write BANK_WOL 1
                   (Z.lor (Z.shiftl (byte_val b2) 8) (byte_val b3))
              ++ banked_write BANK_WOL 2
                   (Z.lor (Z.shiftl (byte_val b0) 8) (byte_val b1))
              ++ banked_write BANK_WOL 3 0xF).
  assert (Hws : wol_enable_script (byte_val b0) (byte_val b1) (byte_val b2)
                  (byte_val b3) (byte_val b4) (byte_val b5)
                = pre ++ [(30, 0xE00)]) by reflexivity.
  rewrite Hws in Hsr.
  assert (Hno : forall v', (30, v') ∉ pre).
  { intros v' Hin. unfold pre, banked_write in Hin. simpl in Hin.
    repeat (apply elem_of_cons in Hin as [Hin | Hin]; [congruence |]).
    inversion Hin. }
  destruct (script_run_last_entry pre 30 0xE00 es rc Hsr Hno _ _ He)
    as (_ & Hrc' & _).
  congruence.
Qed.

Lemma wol_enable_registers_witness :
  exists rc s',
    rockchip_fephy_wol_enable (kernel_ok 7) phydev_wol = Some (rc, s') /\
    (rc = 0 ->
     mdio_regs s' !! SMI_ADDR_TSTWRITE = Some 0xF /\
     mdio_regs s' !! SMI_ADDR_TSTCNTL = Some 0x4C03 /\
     mdio_regs s' !! MII_INT_MASK = Some 0xE00).
Proof.
  destruct (wol_enable_registers (kernel_ok 7) phydev_wol ndev_example
              x00 x11 x22 x33 x44 x55 eq_refl eq_refl)%byte
    as (rc & s' & Hrun & _ & Hok & _).
  exists rc, s'. split; assumption.
Defined.

(** ** Packing the hardware address *)

(** The 16-bit word the driver builds from two address bytes loses
    nothing: it is below 2^16, its high byte is the first byte and its low
    byte the second, and reading the address changes nothing. *)
Theorem dev_addr_word_unpack hi lo bh bl ndev s :
  attached_dev s = Some ndev ->
  dev_addr ndev !! hi = Some bh ->
  dev_addr ndev !! lo = Some bl ->
  exists w,
    dev_addr_word hi lo s = Some (w, s) /\
    0 <= w < 2 ^ 16 /\
    Z.shiftr w 8 = byte_val bh /\
    Z.land w 0xff = byte_val bl.
Proof.
  intros Had Hhi Hlo.
  exists (Z.shiftl (u16 (byte_val bh)) 8 + byte_val bl).
  split; [apply (dev_addr_word_eq hi lo bh bl ndev s Had Hhi Hlo) |].
  pose proof (byte_val_range bh) as Hh.
  pose proof (byte_val_range bl) as Hl.
  rewrite (u16_small (byte_val bh)) by lia.
  rewrite Z.shiftl_mul_pow2 by lia.
  change (2 ^ 8) with 256 in *. change (2 ^ 16) with 65536.
  split; [lia |]. split.
  - rewrite Z.shiftr_div_pow2 by lia. change (2 ^ 8) with 256.
    rewrite Z.div_add_l by lia. rewrite Z.div_small by lia. lia.
  - change 0xff with (Z.ones 8). rewrite Z.land_ones by lia.
    change (2 ^ 8) with 256.
    rewrite Z.add_comm, Z.mod_add by lia. apply Z.mod_small. lia.
Qed.

Lemma dev_addr_word_unpack_witness :
  exists w,
    dev_addr_word 4 5 phydev_wol = Some (w, phydev_wol) /\
    0 <= w < 2 ^ 16 /\
    Z.shiftr w 8 = 0x44 /\
    Z.land w 0xff = 0x55.
Proof.
  apply (dev_addr_word_unpack 4 5 x44 x55 ndev_example phydev_wol);
    reflexivity.
Defined.

(** ** Entering and leaving test mode *)

(** Entering test mode and then leaving it, both without a failure,
    touches the test-mode control register only: it holds the enable value
    0x400 in between and the disable value 0x0 at the end, and every other
    register is as before. *)
Theorem tstmode_enter_exit K s s1 s2 :
  rockchip_fephy_init_tstmode K s = Some (0, s1) ->
  rockchip_fephy_close_tstmode K s1 = Some (0, s2) ->
  mdio_regs s1 !! SMI_ADDR_TSTCNTL = Some TSTMODE_ENABLE /\
  mdio_regs s2 !! SMI_ADDR_TSTCNTL = Some TSTMODE_DISABLE /\
  (forall i, i <> SMI_ADDR_TSTCNTL -> mdio_regs s2 !! i = mdio_regs s !! i) /\
  attached_dev s2 = attached_dev s /\ priv s2 = priv s.
Proof.
  intros Hin Hout.
  destruct (init_tstmode_performs K s)
    as (rc1 & t1 & es1 & Hrun1 & _ & _ & Had1 & Hpr1 & Hregs1 & _).
  rewrite Hin in Hrun1. inversion Hrun1; subst rc1 t1; clear Hrun1.
  destruct (close_tstmode_performs K s1)
    as (rc2 & t2 & es2 & Hrun2 & _ & _ & Had2 & Hpr2 & Hregs2 & _).
  rewrite Hout in Hrun2. inversion Hrun2; subst rc2 t2; clear Hrun2.
  specialize (Hregs1 eq_refl). specialize (Hregs2 eq_refl).
  split; [rewrite Hregs1, write_regs_lookup; reflexivity |].
  split; [rewrite Hregs2, write_regs_lookup; reflexivity |].
  split; [| split; congruence].
  intros i Hi. rewrite Hregs2, write_regs_lookup, Hregs1, write_regs_lookup.
  cbn [last_write tstmode_script]. unfold SMI_ADDR_TSTCNTL in *.
  destruct (Z.eqb_spec 20 i); [congruence | reflexivity].
Qed.

Lemma tstmode_enter_exit_witness :
  exists s1 s2,
    rockchip_fephy_init_tstmode (kernel_ok 7) phydev_fresh = Some (0, s1) /\
    rockchip_fephy_close_tstmode (kernel_ok 7) s1 = Some (0, s2) /\
    mdio_regs s1 !! SMI_ADDR_TSTCNTL = Some TSTMODE_ENABLE /\
    mdio_regs s2 !! SMI_ADDR_TSTCNTL = Some TSTMODE_DISABLE.
Proof.
  destruct (rockchip_fephy_init_tstmode (kernel_ok 7) phydev_fresh)
    as [[rc1 s1] |] eqn:H1; [| vm_compute in H1; discriminate H1].
  assert (rc1 = 0) by (vm_compute in H1; inversion H1; reflexivity).
  subst rc1.
  destruct (rockchip_fephy_close_tstmode (kernel_ok 7) s1)
    as [[rc2 s2] |] eqn:H2; [| unfold rockchip_fephy_close_tstmode,
                                 phy_write in H2; discriminate H2].
  assert (rc2 = 0)
    by (unfold rockchip_fephy_close_tstmode, phy_write in H2;
        inversion H2; reflexivity).
  subst rc2.
  destruct (tstmode_enter_exit (kernel_ok 7) phydev_fresh s1 s2 H1 H2)
    as (Ha & Hb & _).
  exists s1, s2. repeat split; assumption.
Defined.
